(** * vtt-summarizer: the deterministic core of [summarizer13.py]

    A shallow embedding of the script's string processing (the Markdown
    structurer), of its two readers, of the dead helper [format_timestamp]
    and of the path arithmetic of the orchestrator, followed by the
    properties the specification states about them.

    Python [str] values are modelled as [string]; a character is a code
    point below 256.  External collaborators (the [csv] and [webvtt]
    parsers, the clock, the LLM endpoint, the numeric builtins) are not
    re-implemented: their results are inputs of the model. *)

From Stdlib Require Import String Ascii List Bool Arith ZArith Lia.
From Stdlib Require Import DecimalString DecimalNat.
Import ListNotations.
Open Scope list_scope.
Open Scope string_scope.

(* ================================================================= *)
(** * Python string primitives *)

Module Py.

Definition newline : ascii := "010"%char.
Definition nl : string := String newline EmptyString.

(** [str.isspace] on one code point below 256: TAB, LF, VT, FF, CR,
    the separators FS, GS, RS, US, SPACE, NEL and NBSP. *)
Definition isspace (c : ascii) : bool :=
  let n := nat_of_ascii c in
  (((9 <=? n) && (n <=? 13)) || ((28 <=? n) && (n <=? 32))
   || (n =? 133) || (n =? 160))%nat.

(** [s.startswith(p)] *)
Fixpoint startswith (p s : string) : bool :=
  match p, s with
  | EmptyString, _ => true
  | String a p', String b s' => Ascii.eqb a b && startswith p' s'
  | String _ _, EmptyString => false
  end.

(** [s.endswith(p)] for a one-character [p]. *)
Fixpoint endswith_char (c : ascii) (s : string) : bool :=
  match s with
  | EmptyString => false
  | String a EmptyString => Ascii.eqb a c
  | String _ s' => endswith_char c s'
  end.

(** [p in s]: [p] occurs in [s] as a substring. *)
Fixpoint contains (p s : string) : bool :=
  startswith p s
  || match s with
     | EmptyString => false
     | String _ s' => contains p s'
     end.

(** Removal of the leading characters that satisfy [drop]. *)
Fixpoint lstrip_where (drop : ascii -> bool) (s : string) : string :=
  match s with
  | EmptyString => EmptyString
  | String c s' => if drop c then lstrip_where drop s' else s
  end.

(** Removal of the trailing characters that satisfy [drop]. *)
Fixpoint rstrip_where (drop : ascii -> bool) (s : string) : string :=
  match s with
  | EmptyString => EmptyString
  | String c s' =>
      match rstrip_where drop s' with
      | EmptyString => if drop c then EmptyString else String c EmptyString
      | r => String c r
      end
  end.

(** [s.lstrip()], [s.rstrip()], [s.strip()]: whitespace is removed. *)
Definition lstrip (s : string) : string := lstrip_where isspace s.
Definition rstrip (s : string) : string := rstrip_where isspace s.
Definition strip (s : string) : string := rstrip (lstrip s).

(** [s.rstrip(c)] for a one-character [c]. *)
Definition rstrip_char (c : ascii) (s : string) : string :=
  rstrip_where (Ascii.eqb c) s.

(** Truth value of a string: [bool(s)], false exactly on [""]. *)
Definition truthy (s : string) : bool :=
  match s with
  | EmptyString => false
  | String _ _ => true
  end.

(** [x in xs] for a list of strings. *)
Definition mem (x : string) (xs : list string) : bool :=
  existsb (String.eqb x) xs.

(** Splitting at one-character separators.  [is_sep c rest] decides
    whether the character [c], followed by [rest], is a separator; the
    separator is dropped and [rest] starts the next piece.  The result
    always has at least one piece. *)
Fixpoint split_when (is_sep : ascii -> string -> bool) (s : string)
  : list string :=
  match s with
  | EmptyString => [EmptyString]
  | String c rest =>
      if is_sep c rest then EmptyString :: split_when is_sep rest
      else
        match split_when is_sep rest with
        | piece :: pieces => String c piece :: pieces
        | [] => [String c EmptyString]
        end
  end.

(** [s.split(c)] for a one-character [c]. *)
Definition split_char (c : ascii) (s : string) : list string :=
  split_when (fun a _ => Ascii.eqb a c) s.

(** [s.split('\n')] *)
Definition split_nl (s : string) : list string := split_char newline s.

(** [s.replace(old, new)] for a non-empty [old]: the occurrences of
    [old] are replaced from left to right, without overlap.  [skip]
    counts the characters of a replaced occurrence still to be passed. *)
Fixpoint replace_from (old new : string) (skip : nat) (s : string) : string :=
  match s with
  | EmptyString => EmptyString
  | String c s' =>
      match skip with
      | S k => replace_from old new k s'
      | O =>
          if startswith old s
          then new ++ replace_from old new (String.length old - 1) s'
          else String c (replace_from old new 0 s')
      end
  end.

Definition replace (old new s : string) : string := replace_from old new 0 s.

(** [s[:-n]] *)
Definition drop_last (n : nat) (s : string) : string :=
  substring 0 (String.length s - n) s.

(** [str(n)] for an integer [n]. *)
Definition str_of_Z (n : Z) : string :=
  NilEmpty.string_of_int (Z.to_int n).

(** ["%02d" % n] and its wider forms, for a natural number [n]: the
    decimal digits, padded with zeros on the left to [width]. *)
Fixpoint zeros (k : nat) : string :=
  match k with
  | O => EmptyString
  | S k' => String "0" (zeros k')
  end.

Definition zero_pad (width n : nat) : string :=
  let digits := NilEmpty.string_of_uint (Nat.to_uint n) in
  zeros (width - String.length digits) ++ digits.

(** ['\n'.join(ls)] *)
Definition join_nl (ls : list string) : string := String.concat nl ls.

End Py.

(* ================================================================= *)
(** * The Markdown structurer *)

(** A participant record, as built by [read_csv_file]. *)
Record Participant := mkParticipant {
  name : string;
  total_duration : string
}.

(** The four literal section names, in the order of the source. *)
Definition section_names : list string :=
  ["Meeting Overview"; "Main Topics"; "Decisions and Impact"; "Action Items"].

(** The lookahead [(?=(?:Meeting Overview|Main Topics|Decisions and
    Impact|Action Items))]: the text at this point starts with one of the
    four names. *)
Definition lookahead_section (rest : string) : bool :=
  existsb (fun h => Py.startswith h rest) section_names.

(** [re.split(r'\n(?=(?:...))', content)]: every newline that is
    followed by a section name is a split point; the newline is consumed
    and the name stays at the start of the next piece. *)
Definition re_split_sections (content : string) : list string :=
  Py.split_when
    (fun c rest => Ascii.eqb c Py.newline && lookahead_section rest) content.

(** The inner loops [for line in ...: if line.strip(): ... += f"{line}\n"]. *)
Definition append_lines (acc : string) (lines : list string) : string :=
  fold_left
    (fun acc line =>
       if Py.truthy (Py.strip line) then acc ++ line ++ Py.nl else acc)
    lines acc.

(** The body of [for section in sections]. *)
Definition append_section (structured_content section : string) : string :=
  let lines := Py.split_nl section in
  match lines with
  | [] => structured_content
  | line0 :: rest =>
      let header := Py.strip line0 in
      let structured_content :=
        if Py.mem header section_names
        then append_lines (structured_content ++ "## " ++ header ++ Py.nl) rest
        else append_lines structured_content lines in
      structured_content ++ Py.nl
  end.

(** The body of [for participant in participants]. *)
Definition append_participant (structured_content : string) (p : Participant)
  : string :=
  structured_content
    ++ "- " ++ name p ++ " (Total Duration: " ++ total_duration p ++ ")" ++ Py.nl.

Definition structure_markdown
  (content title base_name : string) (participants : list Participant)
  : string :=
  let structured_content := "# " ++ base_name ++ Py.nl ++ Py.nl in
  let sections := re_split_sections content in
  let structured_content := fold_left append_section sections structured_content in
  let structured_content := structured_content ++ "## Participants" ++ Py.nl in
  fold_left append_participant participants structured_content.

(* ================================================================= *)
(** * Effects: printed output, written files, exceptions *)

(** The exceptions the script can meet.  [ExternalError] stands for any
    failure of a collaborator (the LLM endpoint, a malformed caption
    file) that the script does not handle. *)
Inductive exn : Type :=
| StopIteration
| ValueError
| OverflowError
| IndexError
| FileNotFoundError
| ExternalError.

Definition exn_eqb (a b : exn) : bool :=
  match a, b with
  | StopIteration, StopIteration
  | ValueError, ValueError
  | OverflowError, OverflowError
  | IndexError, IndexError
  | FileNotFoundError, FileNotFoundError
  | ExternalError, ExternalError => true
  | _, _ => false
  end.

(** How a call ends: with a value or with an uncaught exception. *)
Inductive outcome (A : Type) : Type :=
| Return (a : A)
| Raise (e : exn).
Arguments Return {A} a.
Arguments Raise {A} e.

(** What a run leaves behind, in order. *)
Inductive event : Type :=
| Print (text : string)
| PrintHelp
| MakeDirs (path : string)
| WriteFile (path content : string).

(** A computation over a world [W] (the state of the collaborators):
    the events it produced, how it ended, the world afterwards. *)
Definition M (W A : Type) : Type := W -> list event * outcome A * W.

Definition ret {W A} (a : A) : M W A := fun w => ([], Return a, w).

Definition raise {W A} (e : exn) : M W A := fun w => ([], Raise e, w).

Definition bind {W A B} (m : M W A) (k : A -> M W B) : M W B :=
  fun w =>
    match m w with
    | (out, Return a, w') =>
        let '(out', r, w'') := k a w' in ((out ++ out')%list, r, w'')
    | (out, Raise e, w') => (out, Raise e, w')
    end.

Definition emit {W} (ev : event) : M W unit := fun w => ([ev], Return tt, w).

Definition print {W} (text : string) : M W unit := emit (Print text).

(** A pure step that may raise. *)
Definition lift {W A} (r : outcome A) : M W A := fun w => ([], r, w).

(** [try: body except e: handler] *)
Definition try_except {W A} (body : M W A) (e : exn) (handler : M W A) : M W A :=
  fun w =>
    match body w with
    | (out, Raise e', w') =>
        if exn_eqb e' e
        then let '(out', r, w'') := handler w' in ((out ++ out')%list, r, w'')
        else (out, Raise e', w')
    | done => done
    end.

Declare Scope run_scope.
Delimit Scope run_scope with run.
Notation "x <- m ;; k" := (bind m (fun x => k))
  (at level 61, m at next level, right associativity) : run_scope.
Notation "m ;; k" := (bind m (fun _ => k))
  (at level 61, right associativity) : run_scope.

(** Projections of a finished run. *)
Definition events_of {W A} (r : list event * outcome A * W) : list event :=
  fst (fst r).
Definition outcome_of {W A} (r : list event * outcome A * W) : outcome A :=
  snd (fst r).

(* ================================================================= *)
(** * Files, as the two parsers see them *)

(** One cue of a caption file, as [webvtt] yields it. *)
Record Caption := mkCaption {
  start : string;
  stop : string;
  text : string
}.

(** A file is represented by what the external parsers make of it:
    [csv_rows] are the rows [csv.reader] yields over it, in order, and
    [captions] is the result of [webvtt.read], which raises on a file
    that is not a caption file. *)
Record File := mkFile {
  csv_rows : list (list string);
  captions : outcome (list Caption)
}.

(** The file system, read-only during a run: [None] where no file exists. *)
Definition FileSystem : Type := string -> option File.

(** [os.path] on a POSIX system. *)
Module Os.

Definition sep : ascii := "/"%char.

(** [os.path.exists(path)] *)
Definition path_exists (fs : FileSystem) (path : string) : bool :=
  match fs path with
  | Some _ => true
  | None => false
  end.

(** [os.path.basename(p)]: what follows the last slash. *)
Definition basename (p : string) : string :=
  last (Py.split_char sep p) EmptyString.

(** [os.path.dirname(p)]: what precedes the last slash, without the
    trailing slashes unless it consists of slashes only. *)
Definition dirname (p : string) : string :=
  match removelast (Py.split_char sep p) with
  | [] => EmptyString
  | pieces =>
      let head := String.concat "/" pieces ++ "/" in
      match Py.rstrip_char sep head with
      | EmptyString => head
      | stripped => stripped
      end
  end.

(** One step of [os.path.join(a, *p)]. *)
Definition join2 (path b : string) : string :=
  if Py.startswith "/" b then b
  else if negb (Py.truthy path) || Py.endswith_char sep path then path ++ b
  else path ++ "/" ++ b.

Definition join (a : string) (p : list string) : string :=
  fold_left join2 p a.

End Os.

(* ================================================================= *)
(** * The readers *)

(** [next(it)] on an iterator over the remaining items. *)
Definition next {A : Type} (it : list A) : outcome (A * list A) :=
  match it with
  | [] => Raise StopIteration
  | x :: it' => Return (x, it')
  end.

(** [for _ in range(n): next(csv_reader)] *)
Fixpoint skip_rows {A : Type} (n : nat) (it : list A) : outcome (list A) :=
  match n with
  | O => Return it
  | S n' =>
      match next it with
      | Return (_, it') => skip_rows n' it'
      | Raise e => Raise e
      end
  end.

(** The body of [for row in csv_reader]. *)
Definition append_row (participants : list Participant) (row : list string)
  : list Participant :=
  if (3 <=? List.length row)%nat
  then (participants ++
        [mkParticipant (Py.strip (nth 0 row EmptyString))
                       (Py.strip (nth 2 row EmptyString))])%list
  else participants.

Section Readers.

Context {W : Type}.
Variable fs : FileSystem.

Local Open Scope run_scope.

Definition read_csv_file (file_path : string) : M W (list Participant) :=
  print ("Reading CSV data from file: " ++ file_path) ;;
  match fs file_path with
  | None => raise FileNotFoundError
  | Some file =>
      csv_reader <- lift (skip_rows 4 (csv_rows file)) ;;
      ret (fold_left append_row csv_reader [])
  end.

Definition read_vtt_file (file_path : string) : M W string :=
  print ("Reading transcript from file: " ++ file_path) ;;
  match fs file_path with
  | None => raise FileNotFoundError
  | Some file =>
      vtt <- lift (captions file) ;;
      let transcript := String.concat " " (map text vtt) in
      print ("Transcript length: "
             ++ Py.str_of_Z (Z.of_nat (String.length transcript))) ;;
      ret transcript
  end.

End Readers.

(* ================================================================= *)
(** * [format_timestamp] *)

(** [str(timedelta(seconds=seconds))]: the seconds are normalised into
    days and seconds of the day; more than 999999999 days overflow. *)
Definition timedelta_str (seconds : Z) : outcome string :=
  let days := (seconds / 86400)%Z in
  let secs := (seconds mod 86400)%Z in
  if (999999999 <? Z.abs days)%Z then Raise OverflowError
  else
    let mm := (secs / 60)%Z in
    let ss := (secs mod 60)%Z in
    let hh := (mm / 60)%Z in
    let mm := (mm mod 60)%Z in
    let s := Py.str_of_Z hh ++ ":" ++ Py.zero_pad 2 (Z.to_nat mm)
             ++ ":" ++ Py.zero_pad 2 (Z.to_nat ss) in
    Return
      (if (days =? 0)%Z then s
       else Py.str_of_Z days ++ " day"
            ++ (if (Z.abs days =? 1)%Z then "" else "s") ++ ", " ++ s).

Section FormatTimestamp.

Context {W : Type}.

(** The numeric builtins: [int(s)] and [float(s)] raise [ValueError]
    on a string that is no literal; [int(x)] raises on a float that is
    no finite number. *)
Variable float : Type.
Variable int_of_str : string -> outcome Z.
Variable float_of_str : string -> outcome float.
Variable int_of_float : float -> outcome Z.

Local Open Scope run_scope.

(** [xs[1]] *)
Definition item1 (xs : list string) : outcome string :=
  match xs with
  | _ :: x :: _ => Return x
  | _ => Raise IndexError
  end.

(** [return str(timedelta(seconds=seconds))[:-3]] *)
Definition return_timedelta (seconds : Z) : M W string :=
  s <- lift (timedelta_str seconds) ;;
  ret (Py.drop_last 3 s).

(** The [try] block. *)
Definition format_timestamp_try (timestamp : string) : M W string :=
  if Py.contains "t=" timestamp then
    field <- lift (item1 (Py.split_char "=" timestamp)) ;;
    seconds <- lift (int_of_str (Py.rstrip_char "s" field)) ;;
    return_timedelta seconds
  else
    let parts := Py.split_char ":" timestamp in
    if (List.length parts =? 3)%nat then ret timestamp
    else if (List.length parts =? 2)%nat then ret ("00:" ++ timestamp)
    else
      x <- lift (float_of_str timestamp) ;;
      seconds <- lift (int_of_float x) ;;
      return_timedelta seconds.

Definition format_timestamp (timestamp : string) : M W string :=
  try_except (format_timestamp_try timestamp) ValueError
    (print ("Warning: Unable to convert timestamp '" ++ timestamp
            ++ "'. Keeping original format.") ;;
     ret timestamp).

End FormatTimestamp.

(* ================================================================= *)
(** * The prompt pipeline *)

Definition overview_prompt : string :=
"
You carefully provide accurate, factual, thoughtful, nuanced responses, and are brilliant at reasoning. Only output the summary which can include questions asked, any interesting quotes, and any action items that were discussed. 

Analyze the following meeting transcript. Provide a comprehensive summary paragraph or two (250-400 words) that captures the key points discussed, decisions made, and the overall purpose of the meeting:

Transcript:
{transcript}

Format your response as a single or double paragraph without bullet points. Do not repeat the prompt back, or say anything extra.
".

Definition main_topics_prompt : string :=
"
List 5-10 main topics discussed in the following meeting transcript. Include a timestamp for each topic:

Transcript:
{transcript}

Format your response as:

- Topic 1 (HH:MM:SS)
- Topic 2 (HH:MM:SS)
...

Only output the bullet points per section which can include questions asked, any interesting quotes, and any action items that were discussed.
Do not repeat the prompt back, or say anything extra.
Do not include any preamble, introduction or postscript about what you are doing. Assume I know.
".

Definition decisions_impact_prompt : string :=
"
Extract 25-50 decisions from the following meeting transcript, including their potential impact and timestamps:

Transcript:
{transcript}

Format your response as:

- **Decision**: [Decision 1]
  - **Impact**: [Detailed impact of Decision 1]
- **Decision**: [Decision 2]
  - **Impact**: [Detailed impact of Decision 2]
...

Only output the bullet points per section which can include questions asked, any interesting quotes, and any action items that were discussed. Do not repeat the prompt back, or say anything extra.

Do not include any preamble, introduction or postscript about what you are doing. Assume I know.
".

Definition action_items_prompt : string :=
"
List 5-10 action items from the following meeting transcript, including who they're assigned to (if mentioned), a detailed description, and timestamp:

Transcript:
{transcript}

Format your response as:

- **Item**: [Action item 1]
  - **Assigned to**: [Person assigned]
  - **Description**: [Detailed description of the action item]
...

Only output the bullet points per section which can include questions asked, any interesting quotes, and any action items that were discussed. Do not repeat the prompt back, or say anything extra.

Do not include any preamble, introduction or postscript about what you are doing. Assume I know.
".

Definition post_processing_prompt : string :=
"
Review the following meeting summary sections and reformat them according to these strict guidelines:
1. Provide exactly four main sections: Meeting Overview, Main Topics, Decisions and Impact, and Action Items.
2. Do not add any additional headers or subheaders within these sections.
3. Keep the Meeting Overview as a single paragraph without bullet points.
4. Use bullet points (-) for all items within the Main Topics, Decisions and Impact, and Action Items sections.
5. Ensure all timestamps are in the format (HH:MM:SS).
6. Remove any unnecessary brackets or parentheses from the Main Topics.
7. Combine similar points and remove redundancies.
8. Keep the content single-spaced.
9. Do not repeat the prompt back, or say anything extra.
10. Do not include any preamble, introduction or postscript about what you are doing.

Original content:
{content}

Without repeating the prompt, or including a preamble, simply reformat the content to match this exact structure:

Meeting Overview
[Single or double paragraph summary]

Main Topics
- Topic 1 (HH:MM:SS)
- Topic 2 (HH:MM:SS)
...

Decisions and Impact
- **Decision**: Decision 1
  - **Impact**: Impact of Decision 1
- **Decision**: Decision 2
  - **Impact**: Impact of Decision 2
...

Action Items
- **Item**: Action item 1
  - **Assigned to**: Person assigned
  - **Description**: Description of action item
...

".

(** [PromptTemplate(template=..., input_variables=[v]).format(v=value)]:
    the one placeholder of the template is replaced by the value. *)
Definition format_prompt (template variable value : string) : string :=
  Py.replace ("{" ++ variable ++ "}") value template.

Section Pipeline.

Context {W : Type}.

(** [model.invoke(query).content]: one request to the endpoint; it may
    change the world and may raise. *)
Variable invoke : string -> M W string.

Local Open Scope run_scope.

Definition extract_section (transcript prompt_template : string) : M W string :=
  let query := format_prompt prompt_template "transcript" transcript in
  invoke query.

Definition post_process_content (content : string) : M W string :=
  let query := format_prompt post_processing_prompt "content" content in
  invoke query.

Definition extract_meeting_notes
  (transcript : string) (participants : list Participant)
  (title base_name : string) : M W string :=
  overview <- extract_section transcript overview_prompt ;;
  main_topics <- extract_section transcript main_topics_prompt ;;
  decisions_impact <- extract_section transcript decisions_impact_prompt ;;
  action_items <- extract_section transcript action_items_prompt ;;
  let content :=
    "Meeting Overview" ++ Py.nl ++ overview ++ Py.nl ++ Py.nl
    ++ "Main Topics" ++ Py.nl ++ main_topics ++ Py.nl ++ Py.nl
    ++ "Decisions and Impact" ++ Py.nl ++ decisions_impact ++ Py.nl ++ Py.nl
    ++ "Action Items" ++ Py.nl ++ action_items in
  processed_content <- post_process_content content ;;
  let structured_content :=
    structure_markdown processed_content title base_name participants in
  ret structured_content.

End Pipeline.

(* ================================================================= *)
(** * The file orchestrator *)

(** A reading of the clock, [datetime.now()]. *)
Record datetime := mkDatetime {
  year : nat;
  month : nat;
  day : nat;
  hour : nat;
  minute : nat;
  second : nat
}.

(** [d.strftime("%Y%m%d%H%M%S")]: the year in four digits, the other
    fields in two. *)
Definition strftime (d : datetime) : string :=
  Py.zero_pad 4 (year d) ++ Py.zero_pad 2 (month d) ++ Py.zero_pad 2 (day d)
  ++ Py.zero_pad 2 (hour d) ++ Py.zero_pad 2 (minute d)
  ++ Py.zero_pad 2 (second d).

(** The parsed command line. *)
Record Args := mkArgs {
  arg_input : option string;
  arg_output_md : option string;
  arg_directory : option string;
  arg_title : string
}.

(** [if x:] for an optional string: [None] and [""] are false. *)
Definition if_given (x : option string) : option string :=
  match x with
  | Some s => if Py.truthy s then Some s else None
  | None => None
  end.

(** [os.path.basename(file_path).replace(".vtt", "")] *)
Definition base_name_of (file_path : string) : string :=
  Py.replace ".vtt" "" (Os.basename file_path).

(** [os.path.join(directory, "md", f"summary_{base_name}_{timestamp}.md")] *)
Definition default_md_file_path (directory base_name timestamp : string) : string :=
  Os.join directory ["md"; "summary_" ++ base_name ++ "_" ++ timestamp ++ ".md"].

Section Orchestrator.

Context {W : Type}.
Variable fs : FileSystem.
Variable invoke : string -> M W string.
(** [datetime.now()] *)
Variable now : M W datetime.
(** [glob.glob(pattern)] *)
Variable glob : string -> list string.

Local Open Scope run_scope.

Definition save_md_to_file (content file_path : string) : M W unit :=
  let directory := Os.dirname file_path in
  (if Py.truthy directory then emit (MakeDirs directory) else ret tt) ;;
  emit (WriteFile file_path content) ;;
  print ("Markdown file saved to " ++ file_path).

(** [read_csv_file(csv_file_path) if os.path.exists(csv_file_path) else []] *)
Definition participants_of (csv_file_path : string) : M W (list Participant) :=
  if Os.path_exists fs csv_file_path then read_csv_file fs csv_file_path
  else ret [].

(** The report and the write that end the processing of one file. *)
Definition report (result md_file_path : string) : M W unit :=
  print (Py.nl ++ "Extracted Information:") ;;
  (if Py.truthy result
   then print result ;; save_md_to_file result md_file_path
   else print "No valid information extracted.") ;;
  print "Information extraction completed.".

(** The body of [for file_path in vtt_files]. *)
Definition process_file (directory title file_path : string) : M W unit :=
  let base_name := base_name_of file_path in
  let csv_file_path := Os.join directory [base_name ++ ".csv"] in
  participants <- participants_of csv_file_path ;;
  transcript <- read_vtt_file fs file_path ;;
  result <- extract_meeting_notes invoke transcript participants title base_name ;;
  d <- now ;;
  let timestamp := strftime d in
  let md_file_path := default_md_file_path directory base_name timestamp in
  report result md_file_path.

(** A [for] loop: the first exception ends it. *)
Fixpoint for_each {A : Type} (xs : list A) (body : A -> M W unit) : M W unit :=
  match xs with
  | [] => ret tt
  | x :: xs' => body x ;; for_each xs' body
  end.

Definition process_files (directory title : string) : M W unit :=
  let vtt_files := glob (Os.join directory ["*.vtt"]) in
  for_each vtt_files (process_file directory title).

Definition main (args : Args) : M W unit :=
  match if_given (arg_directory args) with
  | Some directory => process_files directory (arg_title args)
  | None =>
      match if_given (arg_input args) with
      | Some file_path =>
          if negb (Os.path_exists fs file_path)
          then print ("File not found: " ++ file_path)
          else
            let base_name := base_name_of file_path in
            let csv_file_path :=
              Os.join (Os.dirname file_path) [base_name ++ ".csv"] in
            participants <- participants_of csv_file_path ;;
            transcript <- read_vtt_file fs file_path ;;
            result <- extract_meeting_notes invoke transcript participants
                        (arg_title args) base_name ;;
            d <- now ;;
            let timestamp := strftime d in
            let md_file_path :=
              match if_given (arg_output_md args) with
              | Some path => path
              | None =>
                  default_md_file_path (Os.dirname file_path) base_name timestamp
              end in
            report result md_file_path
      | None => emit PrintHelp
      end
  end.

End Orchestrator.

(* ================================================================= *)
(** * Vocabulary of the specification *)

(** The string holds no newline: it is one line of a text. *)
Fixpoint single_line (s : string) : bool :=
  match s with
  | EmptyString => true
  | String c s' => negb (Ascii.eqb c Py.newline) && single_line s'
  end.

(** A line is non-blank when something is left after [strip]. *)
Definition non_blank (line : string) : bool := Py.truthy (Py.strip line).

(** The non-blank lines of a list, verbatim, each ended by a newline. *)
Definition kept_lines (lines : list string) : string :=
  String.concat "" (map (fun line => line ++ Py.nl) (filter non_blank lines)).

(** A headed block of the document: the second-level header, the
    non-blank lines of the body, an empty line. *)
Definition section_block (header : string) (body : list string) : string :=
  "## " ++ header ++ Py.nl ++ kept_lines body ++ Py.nl.

(** A block without header. *)
Definition unheaded_block (lines : list string) : string :=
  kept_lines lines ++ Py.nl.

(** The bullet of one participant, without its newline. *)
Definition bullet (p : Participant) : string :=
  "- " ++ name p ++ " (Total Duration: " ++ total_duration p ++ ")".

(** The bullets of a participant list, one per line. *)
Definition bullets (participants : list Participant) : string :=
  String.concat "" (map (fun p => bullet p ++ Py.nl) participants).

(** The line opens a chunk of the split: it starts with a section name. *)
Definition opens_section (line : string) : bool := lookahead_section line.

(** The chunks of a text given by its lines [line :: lines]: a new chunk
    starts at every later line that starts with a section name. *)
Fixpoint group_lines (line : string) (lines : list string) : list (list string) :=
  match lines with
  | [] => [[line]]
  | line' :: rest =>
      if opens_section line' then [line] :: group_lines line' rest
      else
        match group_lines line' rest with
        | chunk :: chunks => (line :: chunk) :: chunks
        | [] => [[line]]
        end
  end.

(** A line of the body of a section: one line, and no section name at
    its start (it is no split point of the regular expression). *)
Definition body_line (line : string) : Prop :=
  single_line line = true /\ opens_section line = false.

(** The line is not one of the four names, surrounding whitespace apart. *)
Definition unrecognised (line : string) : bool :=
  negb (Py.mem (Py.strip line) section_names).

(** The record the reader builds from a row with at least 3 fields. *)
Definition participant_of_row (row : list string) : Participant :=
  mkParticipant (Py.strip (nth 0 row EmptyString))
                (Py.strip (nth 2 row EmptyString)).

(** The row has at least 3 fields. *)
Definition has_three_fields (row : list string) : bool :=
  (3 <=? List.length row)%nat.

(** An instance of [int] for the examples: the literals [-?[0-9]+]
    with their value; every other string raises [ValueError].  (Python
    accepts more literals; the examples use none of them.) *)
Definition int_of_decimal (s : string) : outcome Z :=
  match NilZero.int_of_string s with
  | Some d => Return (Z.of_int d)
  | None => Raise ValueError
  end.

(** The string is made of decimal digits. *)
Fixpoint all_digits (s : string) : bool :=
  match s with
  | EmptyString => true
  | String c s' =>
      ((48 <=? nat_of_ascii c)%nat && (nat_of_ascii c <=? 57)%nat) && all_digits s'
  end.

(** The string is made of whitespace other than newlines. *)
Fixpoint padding (s : string) : bool :=
  match s with
  | EmptyString => true
  | String c s' =>
      (Py.isspace c && negb (Ascii.eqb c Py.newline)) && padding s'
  end.

(** [s.count(c)] for a one-character [c]. *)
Fixpoint count_char (c : ascii) (s : string) : nat :=
  match s with
  | EmptyString => O
  | String a s' => (if Ascii.eqb a c then 1 else 0) + count_char c s'
  end.

(** [zero_pad] on a number given by its decimal digits, the lowest
    first, as the conversion of a natural number builds them. *)
Definition pad_little (width : nat) (d : Decimal.uint) : string :=
  let digits := NilEmpty.string_of_uint (Decimal.rev d) in
  Py.zeros (width - String.length digits) ++ digits.

(** [check] holds of [count] numbers in a row, from [d] on. *)
Fixpoint all_from (check : Decimal.uint -> bool) (count : nat) (d : Decimal.uint)
  : bool :=
  match count with
  | O => true
  | S count' => check d && all_from check count' (Decimal.Little.succ d)
  end.

(** A padded number without its leading zeros. *)
Definition unpad (s : string) : string :=
  match Py.lstrip_where (Ascii.eqb "0") s with
  | EmptyString => "0"
  | digits => digits
  end.




(** An endpoint that answers from a script, one reply per request, and
    keeps the queries it was sent; with the script used up it fails. *)
Definition Script : Type := (list (outcome string) * list string)%type.

Definition scripted (query : string) : M Script string :=
  fun s =>
    match fst s with
    | [] => ([], Raise ExternalError, ([], (snd s ++ [query])%list))
    | reply :: script => ([], reply, (script, (snd s ++ [query])%list))
    end.

(** A text in front of the first piece of a split. *)
Definition prepend (l : string) (pieces : list string) : list string :=
  match pieces with
  | piece :: rest => (l ++ piece) :: rest
  | [] => [l]
  end.

(** What the structurer writes for one chunk, given by its lines. *)
Definition chunk_block (chunk : list string) : string :=
  match chunk with
  | [] => EmptyString
  | line0 :: rest =>
      if Py.mem (Py.strip line0) section_names
      then section_block (Py.strip line0) rest
      else unheaded_block chunk
  end.

(* ================================================================= *)
(** * Strings: append, split and join *)

Lemma append_nil_r (s : string) : s ++ "" = s.
Proof. induction s as [|c s IH]; simpl; [reflexivity | now rewrite IH]. Qed.

Lemma append_assoc (a b c : string) : (a ++ b) ++ c = a ++ (b ++ c).
Proof. induction a as [|x a IH]; simpl; [reflexivity | now rewrite IH]. Qed.

Lemma concat_empty_app (xs ys : list string) :
  String.concat "" (xs ++ ys)%list = String.concat "" xs ++ String.concat "" ys.
Proof.
  induction xs as [|x xs IH]; simpl; [reflexivity|].
  destruct xs as [|x' xs].
  - simpl. destruct ys; simpl; [now rewrite append_nil_r | reflexivity].
  - simpl in *. rewrite IH. now rewrite !append_assoc.
Qed.

Lemma concat_empty_cons (x : string) (xs : list string) :
  String.concat "" (x :: xs) = x ++ String.concat "" xs.
Proof. apply (concat_empty_app [x] xs). Qed.

(** ** The loops of the structurer as concatenations *)

Lemma filter_all {A : Type} (f : A -> bool) (xs : list A) :
  Forall (fun x => f x = true) xs -> filter f xs = xs.
Proof.
  induction 1 as [|x xs Hx _ IH]; simpl; [reflexivity|].
  now rewrite Hx, IH.
Qed.

Lemma kept_lines_cons (line : string) (lines : list string) :
  kept_lines (line :: lines)
  = if non_blank line then line ++ Py.nl ++ kept_lines lines
    else kept_lines lines.
Proof.
  unfold kept_lines. cbn [filter].
  destruct (non_blank line); [|reflexivity].
  cbn [map]. rewrite concat_empty_cons. now rewrite append_assoc.
Qed.

Lemma kept_lines_app (xs ys : list string) :
  kept_lines (xs ++ ys)%list = kept_lines xs ++ kept_lines ys.
Proof.
  unfold kept_lines. now rewrite filter_app, map_app, concat_empty_app.
Qed.

Lemma append_lines_spec (lines : list string) (acc : string) :
  append_lines acc lines = acc ++ kept_lines lines.
Proof.
  unfold append_lines.
  revert acc. induction lines as [|l ls IH]; intro acc.
  - simpl. now rewrite append_nil_r.
  - cbn [fold_left]. rewrite IH, kept_lines_cons.
    fold (non_blank l). destruct (non_blank l); [|reflexivity].
    now rewrite !append_assoc.
Qed.

Lemma append_section_spec (acc section : string) :
  append_section acc section = acc ++ chunk_block (Py.split_nl section).
Proof.
  unfold append_section, chunk_block.
  destruct (Py.split_nl section) as [|line0 rest].
  - now rewrite append_nil_r.
  - destruct (Py.mem (Py.strip line0) section_names).
    + rewrite append_lines_spec. unfold section_block.
      now rewrite !append_assoc.
    + rewrite append_lines_spec. unfold unheaded_block.
      now rewrite !append_assoc.
Qed.

Lemma fold_append_section (sections : list string) (acc : string) :
  fold_left append_section sections acc
  = acc ++ String.concat "" (map (fun s => chunk_block (Py.split_nl s)) sections).
Proof.
  revert acc. induction sections as [|s ss IH]; intro acc.
  - simpl. now rewrite append_nil_r.
  - cbn [fold_left map]. rewrite IH, append_section_spec, concat_empty_cons.
    now rewrite append_assoc.
Qed.

Lemma append_participant_spec (acc : string) (p : Participant) :
  append_participant acc p = acc ++ bullet p ++ Py.nl.
Proof.
  unfold append_participant, bullet. now rewrite !append_assoc.
Qed.

Lemma fold_append_participant (participants : list Participant) (acc : string) :
  fold_left append_participant participants acc = acc ++ bullets participants.
Proof.
  unfold bullets.
  revert acc. induction participants as [|p ps IH]; intro acc.
  - simpl. now rewrite append_nil_r.
  - cbn [fold_left map]. rewrite IH, append_participant_spec, concat_empty_cons.
    now rewrite !append_assoc.
Qed.

(** The document is the title, the blocks of the chunks of the split, the
    participants header and the bullets. *)
Lemma structure_markdown_blocks
  (content title base_name : string) (participants : list Participant) :
  structure_markdown content title base_name participants
  = "# " ++ base_name ++ Py.nl ++ Py.nl
    ++ String.concat ""
         (map (fun s => chunk_block (Py.split_nl s)) (re_split_sections content))
    ++ "## Participants" ++ Py.nl ++ bullets participants.
Proof.
  unfold structure_markdown.
  rewrite fold_append_participant, fold_append_section.
  now rewrite !append_assoc.
Qed.

(** ** Splitting a text that is given by its lines *)

Lemma split_when_not_nil (is_sep : ascii -> string -> bool) (s : string) :
  Py.split_when is_sep s <> [].
Proof.
  destruct s as [|c s]; simpl; [discriminate|].
  destruct (is_sep c s); [discriminate|].
  destruct (Py.split_when is_sep s); discriminate.
Qed.

Section SplitAtNewlines.

(** A separator test that fires on newlines only. *)
Variable is_sep : ascii -> string -> bool.
Hypothesis sep_newline :
  forall c rest, is_sep c rest = true -> c = Py.newline.

Lemma split_when_line (l s : string) :
  single_line l = true ->
  Py.split_when is_sep (l ++ s) = prepend l (Py.split_when is_sep s).
Proof.
  induction l as [|c l IH]; intro Hl.
  - simpl. destruct (Py.split_when is_sep s) eqn:E; [|reflexivity].
    now apply split_when_not_nil in E.
  - simpl in Hl. apply andb_true_iff in Hl as [Hc Hl].
    cbn [append Py.split_when].
    destruct (is_sep c (l ++ s)) eqn:E.
    + apply sep_newline in E. subst c.
      now rewrite Ascii.eqb_refl in Hc.
    + rewrite (IH Hl).
      destruct (Py.split_when is_sep s); reflexivity.
Qed.

End SplitAtNewlines.

Lemma join_nl_cons2 (l l' : string) (ls : list string) :
  Py.join_nl (l :: l' :: ls) = l ++ String Py.newline (Py.join_nl (l' :: ls)).
Proof. reflexivity. Qed.

(** [split] undoes [join] on lines. *)
Lemma split_nl_join (l : string) (ls : list string) :
  Forall (fun x => single_line x = true) (l :: ls) ->
  Py.split_nl (Py.join_nl (l :: ls)) = l :: ls.
Proof.
  assert (Hsep : forall c (rest : string),
             Ascii.eqb c Py.newline = true -> c = Py.newline)
    by (intros c _ H; now apply Ascii.eqb_eq).
  revert l. induction ls as [|l' ls IH]; intros l Hall.
  - unfold Py.join_nl. cbn [String.concat].
    rewrite <- (append_nil_r l) at 1.
    unfold Py.split_nl, Py.split_char.
    rewrite (split_when_line _ Hsep); [|now inversion Hall].
    simpl. now rewrite append_nil_r.
  - rewrite join_nl_cons2.
    inversion Hall as [|? ? Hl Hrest]; subst.
    unfold Py.split_nl, Py.split_char in *.
    rewrite (split_when_line _ Hsep _ _ Hl).
    cbn [Py.split_when]. rewrite Ascii.eqb_refl.
    rewrite (IH l' Hrest). simpl. now rewrite append_nil_r.
Qed.

(** A name without newline is found at the start of a text exactly when
    it is found at the start of the first line of the text. *)
Lemma startswith_first_line (h l rest : string) :
  single_line h = true ->
  Py.startswith h (l ++ String Py.newline rest) = Py.startswith h l.
Proof.
  revert l. induction h as [|a h IH]; intros l Hh; [reflexivity|].
  simpl in Hh. apply andb_true_iff in Hh as [Ha Hh].
  destruct l as [|b l]; cbn [append Py.startswith].
  - apply negb_true_iff in Ha. now rewrite Ha.
  - now rewrite (IH l Hh).
Qed.

Lemma lookahead_first_line (l rest : string) :
  lookahead_section (l ++ String Py.newline rest) = lookahead_section l.
Proof.
  unfold lookahead_section, section_names. cbn [existsb].
  now rewrite !startswith_first_line by reflexivity.
Qed.

Lemma lookahead_join (l : string) (ls : list string) :
  lookahead_section (Py.join_nl (l :: ls)) = opens_section l.
Proof.
  destruct ls as [|l' ls]; [reflexivity|].
  rewrite join_nl_cons2. apply lookahead_first_line.
Qed.

Lemma group_lines_head (l : string) (ls : list string) :
  exists chunk chunks, group_lines l ls = (l :: chunk) :: chunks.
Proof.
  revert l. induction ls as [|l' ls IH]; intro l; cbn [group_lines].
  - now exists [], [].
  - destruct (opens_section l').
    + now exists [], (group_lines l' ls).
    + destruct (IH l') as (chunk & chunks & ->).
      now exists (l' :: chunk), chunks.
Qed.

(** The pieces of the regular-expression split are the chunks of lines. *)
Lemma re_split_join (l : string) (ls : list string) :
  Forall (fun x => single_line x = true) (l :: ls) ->
  re_split_sections (Py.join_nl (l :: ls)) = map Py.join_nl (group_lines l ls).
Proof.
  assert (Hsep : forall c rest,
             Ascii.eqb c Py.newline && lookahead_section rest = true ->
             c = Py.newline).
  { intros c rest H. apply andb_true_iff in H as [H _]. now apply Ascii.eqb_eq. }
  unfold re_split_sections.
  revert l. induction ls as [|l' ls IH]; intros l Hall.
  - unfold Py.join_nl. cbn [String.concat group_lines map].
    rewrite <- (append_nil_r l) at 1.
    rewrite (split_when_line _ Hsep); [|now inversion Hall].
    simpl. now rewrite append_nil_r.
  - rewrite join_nl_cons2.
    inversion Hall as [|? ? Hl Hrest]; subst.
    rewrite (split_when_line _ Hsep _ _ Hl).
    cbn [Py.split_when group_lines]. rewrite Ascii.eqb_refl.
    rewrite lookahead_join. cbn [andb].
    rewrite (IH l' Hrest).
    destruct (opens_section l').
    + simpl. now rewrite append_nil_r.
    + destruct (group_lines_head l' ls) as (chunk & chunks & ->).
      reflexivity.
Qed.

(** [join] undoes [split]; the pieces of [split] are single lines. *)
Lemma split_nl_single_line (s : string) :
  Forall (fun x => single_line x = true) (Py.split_nl s).
Proof.
  unfold Py.split_nl, Py.split_char.
  induction s as [|c s IH]; cbn [Py.split_when].
  - now repeat constructor.
  - destruct (Ascii.eqb c Py.newline) eqn:E.
    + now constructor.
    + destruct (Py.split_when _ s) as [|p ps]; inversion IH; subst;
        constructor; simpl; try rewrite E; auto.
Qed.

Lemma join_split_nl (s : string) : Py.join_nl (Py.split_nl s) = s.
Proof.
  unfold Py.split_nl, Py.split_char.
  induction s as [|c s IH]; cbn [Py.split_when]; [reflexivity|].
  destruct (Ascii.eqb c Py.newline) eqn:E.
  - apply Ascii.eqb_eq in E. subst c.
    pose proof (split_when_not_nil (fun a _ => Ascii.eqb a Py.newline) s) as Hne.
    destruct (Py.split_when _ s) as [|p ps]; [contradiction|].
    rewrite join_nl_cons2. cbn [append]. now rewrite IH.
  - destruct (Py.split_when _ s) as [|p ps] eqn:Es.
    + now apply split_when_not_nil in Es.
    + destruct ps as [|p' ps].
      * unfold Py.join_nl in *. cbn [String.concat] in *. now rewrite IH.
      * rewrite join_nl_cons2 in *. cbn [append]. now rewrite IH.
Qed.

(** ** Chunks of lines *)

Lemma group_lines_flatten (l : string) (ls : list string) :
  List.concat (group_lines l ls) = l :: ls.
Proof.
  revert l. induction ls as [|l' ls IH]; intro l; cbn [group_lines].
  - reflexivity.
  - specialize (IH l'). destruct (opens_section l').
    + simpl. now rewrite IH.
    + destruct (group_lines l' ls) as [|chunk chunks]; [discriminate|].
      simpl in *. now rewrite IH.
Qed.

Lemma group_lines_single_lines (l : string) (ls : list string) :
  Forall (fun x => single_line x = true) (l :: ls) ->
  Forall (fun chunk => chunk <> [] /\ Forall (fun x => single_line x = true) chunk)
         (group_lines l ls).
Proof.
  revert l. induction ls as [|l' ls IH]; intros l Hall; cbn [group_lines].
  - constructor; [|constructor]. split; [discriminate | assumption].
  - inversion Hall as [|? ? Hl Hrest]; subst. specialize (IH l' Hrest).
    destruct (opens_section l').
    + constructor; [|assumption]. split; [discriminate | now repeat constructor].
    + destruct (group_lines l' ls) as [|chunk chunks]; [now repeat constructor|].
      inversion IH as [|? ? [_ Hchunk] Hchunks]; subst.
      constructor; [|assumption]. split; [discriminate | now constructor].
Qed.

Lemma group_lines_plain (l : string) (body : list string) :
  Forall (fun x => opens_section x = false) body ->
  group_lines l body = [l :: body].
Proof.
  revert l. induction body as [|x body IH]; intros l Hbody; cbn [group_lines].
  - reflexivity.
  - inversion Hbody as [|? ? Hx Hrest]; subst.
    now rewrite Hx, (IH x Hrest).
Qed.

Lemma group_lines_split (l : string) (xs : list string) (r : string) (rs : list string) :
  opens_section r = true ->
  group_lines l (xs ++ r :: rs) = (group_lines l xs ++ group_lines r rs)%list.
Proof.
  intro Hr. revert l. induction xs as [|x xs IH]; intro l.
  - cbn [app group_lines]. now rewrite Hr.
  - cbn [app group_lines]. rewrite (IH x).
    destruct (opens_section x); [reflexivity|].
    destruct (group_lines_head x xs) as (chunk & chunks & ->). reflexivity.
Qed.

(** The blocks of a text given by its lines. *)
Lemma structure_markdown_lines
  (l : string) (ls : list string) (title base_name : string)
  (participants : list Participant) :
  Forall (fun x => single_line x = true) (l :: ls) ->
  structure_markdown (Py.join_nl (l :: ls)) title base_name participants
  = "# " ++ base_name ++ Py.nl ++ Py.nl
    ++ String.concat "" (map chunk_block (group_lines l ls))
    ++ "## Participants" ++ Py.nl ++ bullets participants.
Proof.
  intro Hall.
  assert (Hchunks : map (fun chunk => chunk_block (Py.split_nl (Py.join_nl chunk)))
                        (group_lines l ls)
                    = map chunk_block (group_lines l ls)).
  { apply map_ext_Forall.
    eapply Forall_impl; [|apply (group_lines_single_lines l ls Hall)].
    intros chunk [Hne Hchunk].
    destruct chunk as [|x xs]; [contradiction|].
    now rewrite split_nl_join. }
  now rewrite structure_markdown_blocks, (re_split_join l ls Hall), map_map, Hchunks.
Qed.

(** The four names are lines, are their own [strip], are recognised and
    open a chunk. *)
Lemma section_name_facts (h : string) :
  In h section_names ->
  single_line h = true /\ Py.strip h = h
  /\ Py.mem h section_names = true /\ opens_section h = true.
Proof.
  intro Hin. repeat (destruct Hin as [<- | Hin]; [now vm_compute|]).
  contradiction.
Qed.

Lemma chunk_block_section (h : string) (body : list string) :
  In h section_names -> chunk_block (h :: body) = section_block h body.
Proof.
  intro Hin. destruct (section_name_facts h Hin) as (_ & Hs & Hm & _).
  unfold chunk_block. now rewrite Hs, Hm.
Qed.

Lemma mem_In (x : string) (xs : list string) :
  Py.mem x xs = true <-> In x xs.
Proof.
  unfold Py.mem. rewrite existsb_exists. split.
  - intros (y & Hy & E). apply String.eqb_eq in E. now subst.
  - intro H. exists x. split; [assumption | apply String.eqb_refl].
Qed.

Lemma chunk_block_unrecognised (l : string) (ls : list string) :
  unrecognised l = true -> chunk_block (l :: ls) = unheaded_block (l :: ls).
Proof.
  unfold unrecognised, chunk_block. intro H.
  apply negb_true_iff in H. now rewrite H.
Qed.

(** Every chunk is written either under one of the four names or
    without any header. *)
Lemma chunk_block_cases (chunk : list string) :
  chunk <> [] ->
  exists l0 body, chunk = l0 :: body
    /\ ((In (Py.strip l0) section_names
         /\ chunk_block chunk = section_block (Py.strip l0) body)
        \/ (unrecognised l0 = true
            /\ chunk_block chunk = unheaded_block chunk)).
Proof.
  destruct chunk as [|l0 body]; [contradiction|]. intros _.
  exists l0, body. split; [reflexivity|].
  unfold chunk_block, unrecognised.
  destruct (Py.mem (Py.strip l0) section_names) eqn:E.
  - left. split; [now apply mem_In | reflexivity].
  - right. split; reflexivity.
Qed.

(** The first chunk starts with the first line; every later chunk starts
    with a line that opens a section. *)
Lemma group_lines_heads (Q : string -> Prop) (ps : list string) :
  Forall (fun x => opens_section x = true -> Q x) ps ->
  forall p0, exists chunk chunks,
    group_lines p0 ps = (p0 :: chunk) :: chunks
    /\ Forall (fun c => exists x xs, c = x :: xs /\ Q x) chunks.
Proof.
  induction 1 as [|x ps Hx Hps IH]; intro p0; cbn [group_lines].
  - exists [], []. split; [reflexivity | constructor].
  - destruct (IH x) as (chunk & chunks & E & Hchunks). rewrite E.
    destruct (opens_section x).
    + exists [], ((x :: chunk) :: chunks). split; [reflexivity|].
      constructor; [|assumption]. exists x, chunk. split; auto.
    + exists (x :: chunk), chunks. split; [reflexivity | assumption].
Qed.

(** The chunks of leading content that holds no recognised header are
    all written without header. *)
Lemma leading_chunks_unheaded (p0 : string) (ps : list string) :
  unrecognised p0 = true ->
  Forall (fun x => opens_section x = true -> unrecognised x = true) ps ->
  map chunk_block (group_lines p0 ps) = map unheaded_block (group_lines p0 ps).
Proof.
  intros Hp0 Hps.
  destruct (group_lines_heads _ ps Hps p0) as (chunk & chunks & -> & Hchunks).
  cbn [map]. rewrite chunk_block_unrecognised by assumption. f_equal.
  apply map_ext_Forall. eapply Forall_impl; [|exact Hchunks].
  intros c (x & xs & -> & Hx). now apply chunk_block_unrecognised.
Qed.

(** Where every line is non-blank, all lines are kept. *)
Lemma kept_lines_all (lines : list string) :
  Forall (fun line => non_blank line = true) lines ->
  kept_lines lines = String.concat "" (map (fun line => line ++ Py.nl) lines).
Proof.
  intro Hall. unfold kept_lines. now rewrite filter_all.
Qed.

Lemma bullets_lines (participants : list Participant) :
  bullets participants
  = String.concat ""
      (map (fun p => "- " ++ name p ++ " (Total Duration: "
                     ++ total_duration p ++ ")" ++ Py.nl) participants).
Proof.
  unfold bullets, bullet. f_equal. apply map_ext. intro p.
  now rewrite !append_assoc.
Qed.

(* ================================================================= *)
(** * Properties of the Markdown structurer *)

(** C1.  A normalized text made of the four literal section headers in
    their order, each on a line of its own and followed by the lines of
    its body (lines that do not themselves start with a section name),
    is structured, for every base name and participant list, as the title
    [# base_name], the four [## header] blocks in the same order, each
    with the non-blank lines of its body verbatim, and the
    [## Participants] block with one bullet
    [- name (Total Duration: total_duration)] per participant, in input
    order. *)
Theorem structure_markdown_four_sections
  (b1 b2 b3 b4 : list string) (title base_name : string)
  (participants : list Participant) :
  Forall body_line (b1 ++ b2 ++ b3 ++ b4) ->
  structure_markdown
    (Py.join_nl ("Meeting Overview" :: b1 ++ "Main Topics" :: b2
                 ++ "Decisions and Impact" :: b3 ++ "Action Items" :: b4))
    title base_name participants
  = "# " ++ base_name ++ Py.nl ++ Py.nl
    ++ section_block "Meeting Overview" b1
    ++ section_block "Main Topics" b2
    ++ section_block "Decisions and Impact" b3
    ++ section_block "Action Items" b4
    ++ "## Participants" ++ Py.nl
    ++ String.concat ""
         (map (fun p => "- " ++ name p ++ " (Total Duration: "
                        ++ total_duration p ++ ")" ++ Py.nl) participants).
Proof.
  intro Hbody.
  apply Forall_app in Hbody as [H1 Hbody].
  apply Forall_app in Hbody as [H2 Hbody].
  apply Forall_app in Hbody as [H3 H4].
  assert (Hline : forall b, Forall body_line b ->
                         Forall (fun x => single_line x = true) b)
    by (intros b Hb; eapply Forall_impl; [|exact Hb]; now intros x [Hx _]).
  assert (Hplain : forall b, Forall body_line b ->
                          Forall (fun x => opens_section x = false) b)
    by (intros b Hb; eapply Forall_impl; [|exact Hb]; now intros x [_ Hx]).
  rewrite structure_markdown_lines.
  - rewrite !group_lines_split by reflexivity.
    rewrite !group_lines_plain by auto.
    cbn [app map].
    rewrite !chunk_block_section by (simpl; auto).
    rewrite !concat_empty_cons. cbn [String.concat].
    rewrite bullets_lines. unfold section_block.
    now rewrite append_nil_r, !append_assoc.
  - constructor; [reflexivity|].
    repeat (apply Forall_app; split; auto; try (constructor; [reflexivity|])).
Qed.

(** C2.  Content that precedes any recognised section header, including
    lines that look like headers but are not one of the four names, is
    passed through: its lines are cut into chunks without loss, and every
    chunk is written as its non-blank lines verbatim with no [## ] header
    in front.  And for every input, a chunk of the text is written either
    without header or under a [## ] header that is one of the four names:
    with [## Participants] these are the only headers the structurer
    adds. *)
Theorem structure_markdown_leading_content
  (p0 : string) (ps rest : list string) (title base_name : string)
  (participants : list Participant) :
  Forall (fun x => single_line x = true) (p0 :: ps ++ rest) ->
  unrecognised p0 = true ->
  Forall (fun x => opens_section x = true -> unrecognised x = true) ps ->
  match rest with [] => True | r :: _ => opens_section r = true end ->
  (List.concat (group_lines p0 ps) = p0 :: ps
   /\ structure_markdown (Py.join_nl (p0 :: ps ++ rest)) title base_name
        participants
      = "# " ++ base_name ++ Py.nl ++ Py.nl
        ++ String.concat ""
             (map (fun chunk => kept_lines chunk ++ Py.nl) (group_lines p0 ps))
        ++ match rest with
           | [] => ""
           | r :: rs => String.concat "" (map chunk_block (group_lines r rs))
           end
        ++ "## Participants" ++ Py.nl ++ bullets participants)
  /\ (forall content : string,
        exists chunks : list (list string),
          List.concat chunks = Py.split_nl content
          /\ structure_markdown content title base_name participants
             = "# " ++ base_name ++ Py.nl ++ Py.nl
               ++ String.concat "" (map chunk_block chunks)
               ++ "## Participants" ++ Py.nl ++ bullets participants
          /\ Forall
               (fun chunk =>
                  exists l0 body, chunk = l0 :: body
                    /\ ((In (Py.strip l0) section_names
                         /\ chunk_block chunk
                            = "## " ++ Py.strip l0 ++ Py.nl
                              ++ kept_lines body ++ Py.nl)
                        \/ (unrecognised l0 = true
                            /\ chunk_block chunk = kept_lines chunk ++ Py.nl)))
               chunks).
Proof.
  intros Hlines Hp0 Hps Hrest. split; [split|].
  - apply group_lines_flatten.
  - rewrite app_comm_cons in Hlines |- *.
    destruct rest as [|r rs].
    + rewrite app_nil_r in *. cbn [app] in Hlines.
      rewrite structure_markdown_lines by assumption.
      rewrite leading_chunks_unheaded by assumption. reflexivity.
    + cbn [app] in Hlines |- *.
      rewrite structure_markdown_lines by assumption.
      rewrite group_lines_split by assumption.
      rewrite map_app, concat_empty_app.
      rewrite leading_chunks_unheaded by assumption.
      now rewrite !append_assoc.
  - intro content.
    pose proof (split_nl_single_line content) as Hsingle.
    pose proof (join_split_nl content) as Hjoin.
    destruct (Py.split_nl content) as [|l ls] eqn:E.
    { now apply split_when_not_nil in E. }
    exists (group_lines l ls). split; [apply group_lines_flatten|]. split.
    + rewrite <- Hjoin at 1. now apply structure_markdown_lines.
    + eapply Forall_impl; [|apply (group_lines_single_lines l ls Hsingle)].
      intros chunk [Hne _]. now apply chunk_block_cases.
Qed.

(** C6.  The title does not influence the document: the structurer
    returns the same string for any two titles, and so does the whole
    pipeline on the same replies of the endpoint. *)
Theorem structure_markdown_ignores_title
  (content t1 t2 base_name : string) (participants : list Participant) :
  structure_markdown content t1 base_name participants
  = structure_markdown content t2 base_name participants
  /\ forall (W : Type) (invoke : string -> M W string) (transcript : string),
       extract_meeting_notes invoke transcript participants t1 base_name
       = extract_meeting_notes invoke transcript participants t2 base_name.
Proof. split; reflexivity. Qed.

(** C10.  For every content, base name and participant list the document
    ends with the [## Participants] header followed by one bullet per
    participant; with no participant the header is still there, followed
    by nothing.  What precedes the header does not depend on the
    participants. *)
Theorem structure_markdown_ends_with_participants
  (content title base_name : string) :
  exists body : string,
    (forall participants : list Participant,
       structure_markdown content title base_name participants
       = body ++ "## Participants" ++ Py.nl
         ++ String.concat "" (map (fun p => bullet p ++ Py.nl) participants)
       /\ List.length (map (fun p => bullet p ++ Py.nl) participants)
          = List.length participants)
    /\ structure_markdown content title base_name []
       = body ++ "## Participants" ++ Py.nl.
Proof.
  exists ("# " ++ base_name ++ Py.nl ++ Py.nl
          ++ String.concat ""
               (map (fun s => chunk_block (Py.split_nl s))
                    (re_split_sections content))).
  split.
  - intro participants. split; [|apply length_map].
    rewrite structure_markdown_blocks. now rewrite !append_assoc.
  - rewrite structure_markdown_blocks. unfold bullets. cbn [map String.concat].
    now rewrite !append_assoc.
Qed.

Lemma structure_markdown_four_sections_witness :
  Forall body_line
    (["The team met."; ""] ++ ["- Roadmap (00:01:00)"]
     ++ ["- **Decision**: ship"; "  - **Impact**: users"] ++ ["- **Item**: write notes"])
  /\ structure_markdown
       (Py.join_nl
          ("Meeting Overview" :: ["The team met."; ""]
           ++ "Main Topics" :: ["- Roadmap (00:01:00)"]
           ++ "Decisions and Impact" :: ["- **Decision**: ship"; "  - **Impact**: users"]
           ++ "Action Items" :: ["- **Item**: write notes"]))
       "Metaverse Standards Forum" "meeting1"
       [mkParticipant "Ann" "5 min"; mkParticipant "Bob" "12 min"]
     = "# meeting1

## Meeting Overview
The team met.

## Main Topics
- Roadmap (00:01:00)

## Decisions and Impact
- **Decision**: ship
  - **Impact**: users

## Action Items
- **Item**: write notes

## Participants
- Ann (Total Duration: 5 min)
- Bob (Total Duration: 12 min)
".
Proof.
  assert (H : Forall body_line
                (["The team met."; ""] ++ ["- Roadmap (00:01:00)"]
                 ++ ["- **Decision**: ship"; "  - **Impact**: users"]
                 ++ ["- **Item**: write notes"]))
    by (repeat constructor).
  split; [exact H|].
  exact (structure_markdown_four_sections
           ["The team met."; ""] ["- Roadmap (00:01:00)"]
           ["- **Decision**: ship"; "  - **Impact**: users"]
           ["- **Item**: write notes"]
           "Metaverse Standards Forum" "meeting1"
           [mkParticipant "Ann" "5 min"; mkParticipant "Bob" "12 min"] H).
Defined.

Lemma structure_markdown_leading_content_witness :
  structure_markdown
    (Py.join_nl ("Here is the summary:" :: ["## Summary"; "Main Topics: see below"]
                 ++ ["Meeting Overview"; "The team met."]))
    "Metaverse Standards Forum" "meeting1" [mkParticipant "Ann" "5 min"]
  = "# meeting1

Here is the summary:
## Summary

Main Topics: see below

## Meeting Overview
The team met.

## Participants
- Ann (Total Duration: 5 min)
".
Proof.
  refine (proj2 (proj1 (structure_markdown_leading_content
            "Here is the summary:" ["## Summary"; "Main Topics: see below"]
            ["Meeting Overview"; "The team met."]
            "Metaverse Standards Forum" "meeting1" [mkParticipant "Ann" "5 min"]
            _ _ _ _))).
  - repeat constructor.
  - reflexivity.
  - repeat constructor.
  - reflexivity.
Defined.

(* ================================================================= *)
(** * Properties of the readers *)

Lemma fold_append_row (rows : list (list string)) (acc : list Participant) :
  fold_left append_row rows acc
  = (acc ++ map participant_of_row (filter has_three_fields rows))%list.
Proof.
  revert acc. induction rows as [|row rows IH]; intro acc; cbn [fold_left].
  - simpl. now rewrite app_nil_r.
  - rewrite IH. unfold append_row. cbn [filter]. unfold has_three_fields.
    destruct (3 <=? List.length row)%nat; [|reflexivity].
    cbn [map]. now rewrite <- app_assoc.
Qed.

Lemma skip_rows_app {A : Type} (header data : list A) :
  skip_rows (List.length header) (header ++ data) = Return data.
Proof. induction header as [|x header IH]; simpl; auto. Qed.

Lemma skip_rows_short {A : Type} (n : nat) (it : list A) :
  (List.length it < n)%nat -> skip_rows n it = Raise StopIteration.
Proof.
  revert it. induction n as [|n IH]; intros it Hlen; [lia|].
  destruct it as [|x it]; simpl; [reflexivity|].
  apply IH. simpl in Hlen. lia.
Qed.

(** C3.  On an attendance file of 4 header rows followed by data rows,
    [read_csv_file] returns, without raising, one record per data row
    that has at least 3 fields, in order, made of field 0 and field 2 with
    the surrounding whitespace stripped; a row with fewer than 3 fields
    gives no record.  When each of the N data rows has at least 3 fields
    these are exactly N records, record i coming from row i. *)
Theorem read_csv_file_records
  (W : Type) (fs : FileSystem) (file_path : string) (file : File)
  (header data : list (list string)) (w : W) :
  fs file_path = Some file ->
  csv_rows file = (header ++ data)%list ->
  List.length header = 4%nat ->
  read_csv_file fs file_path w
  = ([Print ("Reading CSV data from file: " ++ file_path)],
     Return (map participant_of_row (filter has_three_fields data)), w)
  /\ (Forall (fun row => (3 <= List.length row)%nat) data ->
      read_csv_file fs file_path w
      = ([Print ("Reading CSV data from file: " ++ file_path)],
         Return (map participant_of_row data), w)
      /\ List.length (map participant_of_row data) = List.length data
      /\ forall i row, nth_error data i = Some row ->
           nth_error (map participant_of_row data) i
           = Some {| name := Py.strip (nth 0 row "");
                     total_duration := Py.strip (nth 2 row "") |}).
Proof.
  intros Hfile Hrows Hheader.
  assert (Hrun : read_csv_file fs file_path w
                 = ([Print ("Reading CSV data from file: " ++ file_path)],
                    Return (map participant_of_row (filter has_three_fields data)),
                    w)).
  { unfold read_csv_file, bind, print, emit, lift, ret.
    rewrite Hfile, Hrows, <- Hheader, skip_rows_app, fold_append_row.
    reflexivity. }
  split; [exact Hrun|].
  intro Hall. rewrite Hrun, filter_all.
  - split; [reflexivity|]. split; [apply length_map|].
    intros i row Hi. now rewrite nth_error_map, Hi.
  - eapply Forall_impl; [|exact Hall].
    intros row Hrow. unfold has_three_fields. now apply Nat.leb_le.
Qed.

Lemma read_csv_file_records_witness :
  @read_csv_file unit
    (fun path =>
       if String.eqb path "meeting1.csv"
       then Some (mkFile [["Meeting"]; ["Start"; "End"]; []; ["Name"; "Email"; "Duration"];
                          [" Ann "; "ann@example.org"; " 5 min"];
                          ["Bob"; "bob@example.org"];
                          ["Cy"; ""; "12 min "; "guest"]]
                         (Raise ExternalError))
       else None)
    "meeting1.csv" tt
  = ([Print "Reading CSV data from file: meeting1.csv"],
     Return [mkParticipant "Ann" "5 min"; mkParticipant "Cy" "12 min"], tt).
Proof.
  refine (proj1 (read_csv_file_records unit _ "meeting1.csv" _
                   [["Meeting"]; ["Start"; "End"]; []; ["Name"; "Email"; "Duration"]]
                   [[" Ann "; "ann@example.org"; " 5 min"];
                    ["Bob"; "bob@example.org"];
                    ["Cy"; ""; "12 min "; "guest"]] tt _ _ _));
    reflexivity.
Defined.

(** C9.  On an attendance file with fewer than 4 rows [read_csv_file]
    does not return a list: the fourth [next] at the latest finds the
    reader exhausted and the [StopIteration] it raises is not caught. *)
Theorem read_csv_file_short_file
  (W : Type) (fs : FileSystem) (file_path : string) (file : File) (w : W) :
  fs file_path = Some file ->
  (List.length (csv_rows file) < 4)%nat ->
  read_csv_file fs file_path w
  = ([Print ("Reading CSV data from file: " ++ file_path)],
     Raise StopIteration, w).
Proof.
  intros Hfile Hshort.
  unfold read_csv_file, bind, print, emit, lift.
  now rewrite Hfile, (skip_rows_short 4 _ Hshort).
Qed.

Lemma read_csv_file_short_file_witness :
  @read_csv_file unit
    (fun path =>
       if String.eqb path "meeting1.csv"
       then Some (mkFile [["Name"; "Email"; "Duration"]; ["Ann"; "a"; "5 min"];
                          ["Bob"; "b"; "12 min"]]
                         (Raise ExternalError))
       else None)
    "meeting1.csv" tt
  = ([Print "Reading CSV data from file: meeting1.csv"], Raise StopIteration, tt).
Proof.
  refine (read_csv_file_short_file unit _ "meeting1.csv" _ tt _ _).
  - reflexivity.
  - simpl. lia.
Defined.

(** Called on a path where no file exists, [read_csv_file] itself
    raises: the empty list of the orchestrator comes from its guard. *)
Lemma read_csv_file_missing_file
  (W : Type) (fs : FileSystem) (file_path : string) (w : W) :
  fs file_path = None ->
  read_csv_file fs file_path w
  = ([Print ("Reading CSV data from file: " ++ file_path)],
     Raise FileNotFoundError, w).
Proof.
  intro Hfile. unfold read_csv_file, bind, print, emit, raise.
  now rewrite Hfile.
Qed.

(** C7.  On a caption file whose cues carry the texts t1, ..., tn in
    file order, [read_vtt_file] returns these texts joined by single
    spaces; for the captions "Hello" and "world" it returns
    "Hello world". *)
Theorem read_vtt_file_joins_captions
  (W : Type) (fs : FileSystem) (file_path : string) (file : File)
  (vtt : list Caption) (w : W) :
  fs file_path = Some file ->
  captions file = Return vtt ->
  outcome_of (read_vtt_file fs file_path w)
  = Return (String.concat " " (map text vtt))
  /\ (map text vtt = ["Hello"; "world"] ->
      read_vtt_file fs file_path w
      = ([Print ("Reading transcript from file: " ++ file_path);
          Print "Transcript length: 11"],
         Return "Hello world", w)).
Proof.
  intros Hfile Hvtt.
  unfold read_vtt_file, bind, print, emit, lift, ret, outcome_of.
  rewrite Hfile, Hvtt. split; [reflexivity|].
  intros ->. reflexivity.
Qed.

Lemma read_vtt_file_joins_captions_witness :
  @read_vtt_file unit
    (fun path =>
       if String.eqb path "meeting1.vtt"
       then Some (mkFile []
                    (Return [mkCaption "00:00:01.000" "00:00:02.000" "Hello";
                             mkCaption "00:00:02.000" "00:00:03.500" "world"]))
       else None)
    "meeting1.vtt" tt
  = ([Print "Reading transcript from file: meeting1.vtt";
      Print "Transcript length: 11"],
     Return "Hello world", tt).
Proof.
  refine (proj2 (read_vtt_file_joins_captions unit _ "meeting1.vtt" _
                   [mkCaption "00:00:01.000" "00:00:02.000" "Hello";
                    mkCaption "00:00:02.000" "00:00:03.500" "world"] tt _ _) _);
    reflexivity.
Defined.

(* ================================================================= *)
(** * Properties of the orchestrator *)

Lemma bind_silent_return {W A B : Type} (m : M W A) (k : A -> M W B) (a : A) (w : W) :
  m w = ([], Return a, w) -> bind m k w = k a w.
Proof.
  intro Hm. unfold bind. rewrite Hm.
  now destruct (k a w) as [[out r] w'].
Qed.

Lemma participants_of_missing_file
  {W : Type} (fs : FileSystem) (csv_file_path : string) (w : W) :
  fs csv_file_path = None ->
  participants_of fs csv_file_path w = ([], Return [], w).
Proof.
  intro Hfile. unfold participants_of, Os.path_exists. now rewrite Hfile.
Qed.

Section MissingAttendance.

Context {W : Type}.
Variable fs : FileSystem.
Variable invoke : string -> M W string.
Variable now : M W datetime.
Variable glob : string -> list string.

Local Open Scope run_scope.

(** C4.  When the attendance file of a transcript does not exist, the
    participants are the empty list and nothing is raised, in directory
    mode and in single-file mode alike; the pipeline goes on as it does
    with an empty participant list. *)
Theorem missing_attendance_file_is_no_error
  (directory title file_path : string) (w : W) :
  fs (Os.join directory [base_name_of file_path ++ ".csv"]) = None ->
  participants_of fs (Os.join directory [base_name_of file_path ++ ".csv"]) w
  = ([], Return [], w)
  /\ process_file fs invoke now directory title file_path w
     = (transcript <- read_vtt_file fs file_path ;;
        result <- extract_meeting_notes invoke transcript [] title
                    (base_name_of file_path) ;;
        d <- now ;;
        report result
          (default_md_file_path directory (base_name_of file_path)
             (strftime d))) w
  /\ (forall args : Args,
        if_given (arg_directory args) = None ->
        if_given (arg_input args) = Some file_path ->
        Os.path_exists fs file_path = true ->
        directory = Os.dirname file_path ->
        main fs invoke now glob args w
        = (transcript <- read_vtt_file fs file_path ;;
           result <- extract_meeting_notes invoke transcript []
                       (arg_title args) (base_name_of file_path) ;;
           d <- now ;;
           report result
             match if_given (arg_output_md args) with
             | Some path => path
             | None =>
                 default_md_file_path (Os.dirname file_path)
                   (base_name_of file_path) (strftime d)
             end) w).
Proof.
  intro Hcsv.
  pose proof (participants_of_missing_file fs _ w Hcsv) as Hnone.
  split; [exact Hnone|]. split.
  - unfold process_file.
    exact (bind_silent_return _ _ [] w Hnone).
  - intros args Hdir Hinput Hexists ->.
    unfold main. rewrite Hdir, Hinput, Hexists. cbn [negb].
    exact (bind_silent_return _ _ [] w Hnone).
Qed.

End MissingAttendance.

Lemma missing_attendance_file_is_no_error_witness :
  events_of
    (process_file
       (fun path =>
          if String.eqb path "talks/weekly.vtt"
          then Some (mkFile [] (Return [mkCaption "0" "1" "Hello";
                                        mkCaption "1" "2" "world"]))
          else None)
       (fun _ => ret ("Meeting Overview" ++ Py.nl ++ "A greeting."))
       (ret (mkDatetime 2024 1 2 3 4 5))
       "talks" "Metaverse Standards Forum" "talks/weekly.vtt" tt)
  = [Print "Reading transcript from file: talks/weekly.vtt";
     Print "Transcript length: 11";
     Print "
Extracted Information:";
     Print "# weekly

## Meeting Overview
A greeting.

## Participants
";
     MakeDirs "talks/md";
     WriteFile "talks/md/summary_weekly_20240102030405.md" "# weekly

## Meeting Overview
A greeting.

## Participants
";
     Print "Markdown file saved to talks/md/summary_weekly_20240102030405.md";
     Print "Information extraction completed."].
Proof.
  rewrite (proj1 (proj2 (missing_attendance_file_is_no_error
                           (W := unit) _ _ _ (fun _ => [])
                           "talks" "Metaverse Standards Forum"
                           "talks/weekly.vtt" tt eq_refl))).
  vm_compute. reflexivity.
Defined.

(* ================================================================= *)
(** * Properties of [format_timestamp] *)

Section TimestampFailures.

Context {W : Type}.
Variable float : Type.
Variable int_of_str : string -> outcome Z.
Variable float_of_str : string -> outcome float.
Variable int_of_float : float -> outcome Z.

(** The [try] block prints nothing and leaves the world as it is. *)
Lemma format_timestamp_try_pure (timestamp : string) (w : W) :
  exists r,
    format_timestamp_try float int_of_str float_of_str int_of_float timestamp w
    = ([], r, w).
Proof.
  unfold format_timestamp_try, return_timedelta, bind, lift, ret.
  destruct (Py.contains "t=" timestamp).
  - destruct (item1 _); [|eauto].
    destruct (int_of_str _); [|eauto].
    destruct (timedelta_str _); eauto.
  - destruct (_ =? 3)%nat; [eauto|].
    destruct (_ =? 2)%nat; [eauto|].
    destruct (float_of_str _); [|eauto].
    destruct (int_of_float _); [|eauto].
    destruct (timedelta_str _); eauto.
Qed.

(** A [t=] timestamp whose number is no integer literal makes the
    [try] block raise [ValueError]. *)
Lemma format_timestamp_try_int_failure (timestamp field : string) (w : W) :
  Py.contains "t=" timestamp = true ->
  item1 (Py.split_char "=" timestamp) = Return field ->
  int_of_str (Py.rstrip_char "s" field) = Raise ValueError ->
  format_timestamp_try float int_of_str float_of_str int_of_float timestamp w
  = ([], Raise ValueError, w).
Proof.
  intros Ht Hfield Hint.
  unfold format_timestamp_try, bind, lift.
  now rewrite Ht, Hfield, Hint.
Qed.

(** A timestamp without [t=] and with neither one nor two colons that
    is no float literal makes the [try] block raise [ValueError]. *)
Lemma format_timestamp_try_float_failure (timestamp : string) (w : W) :
  Py.contains "t=" timestamp = false ->
  List.length (Py.split_char ":" timestamp) <> 3%nat ->
  List.length (Py.split_char ":" timestamp) <> 2%nat ->
  float_of_str timestamp = Raise ValueError ->
  format_timestamp_try float int_of_str float_of_str int_of_float timestamp w
  = ([], Raise ValueError, w).
Proof.
  intros Ht H3 H2 Hfloat.
  unfold format_timestamp_try, bind, lift.
  apply Nat.eqb_neq in H3, H2.
  now rewrite Ht, H3, H2, Hfloat.
Qed.

End TimestampFailures.

(** C8.  Whenever the parsing inside [format_timestamp] raises
    [ValueError], whatever the numeric builtins are, [format_timestamp]
    does not raise: it prints the warning and returns the timestamp it
    was given, unchanged. *)
Theorem format_timestamp_value_error
  (W float : Type) (int_of_str : string -> outcome Z)
  (float_of_str : string -> outcome float) (int_of_float : float -> outcome Z)
  (timestamp : string) (w : W) :
  outcome_of
    (format_timestamp_try float int_of_str float_of_str int_of_float timestamp w)
  = Raise ValueError ->
  format_timestamp float int_of_str float_of_str int_of_float timestamp w
  = ([Print ("Warning: Unable to convert timestamp '" ++ timestamp
             ++ "'. Keeping original format.")],
     Return timestamp, w).
Proof.
  intro Htry.
  destruct (format_timestamp_try_pure float int_of_str float_of_str int_of_float
              timestamp w) as [r Hrun].
  rewrite Hrun in Htry. unfold outcome_of in Htry. cbn [fst snd] in Htry.
  subst r. unfold format_timestamp, try_except. rewrite Hrun.
  reflexivity.
Qed.

Lemma format_timestamp_value_error_witness :
  format_timestamp Z int_of_decimal int_of_decimal (fun x => Return x)
    "t=12m30s" tt
  = ([Print "Warning: Unable to convert timestamp 't=12m30s'. Keeping original format."],
     Return "t=12m30s", tt).
Proof.
  exact (format_timestamp_value_error unit Z int_of_decimal int_of_decimal
           (fun x => Return x) "t=12m30s" tt eq_refl).
Defined.

(* ================================================================= *)
(** * The base name and the output path *)

Lemma replace_from_cons (old new : string) (c : ascii) (s : string) :
  Py.replace_from old new 0 (String c s)
  = if Py.startswith old (String c s)
    then new ++ Py.replace_from old new (String.length old - 1) s
    else String c (Py.replace_from old new 0 s).
Proof. reflexivity. Qed.

(** No occurrence of [.vtt] starts in a text and ends in a [.vtt] that
    follows it. *)
Lemma startswith_vtt_straddle (s : string) :
  Py.startswith ".vtt" (s ++ ".vtt") = true ->
  s = "" \/ Py.startswith ".vtt" s = true.
Proof.
  destruct s as [|a [|b [|c [|d s]]]]; [now left | | | |]; intro H; right;
    simpl in H |- *;
    repeat match type of H with
           | context [Ascii.eqb ?x ?y] => destruct (Ascii.eqb x y); simpl in H
           end;
    congruence.
Qed.

(** Where [.vtt] occurs as the extension only, [replace] strips it. *)
Lemma replace_vtt_extension (stem : string) :
  Py.contains ".vtt" stem = false ->
  Py.replace ".vtt" "" (stem ++ ".vtt") = stem.
Proof.
  unfold Py.replace.
  induction stem as [|c stem IH]; intro Hfree; [reflexivity|].
  cbn [Py.contains] in Hfree. apply orb_false_iff in Hfree as [Hhere Hlater].
  cbn [append]. rewrite replace_from_cons.
  destruct (Py.startswith ".vtt" (String c (stem ++ ".vtt"))) eqn:E.
  - apply (startswith_vtt_straddle (String c stem)) in E as [E | E];
      [discriminate | congruence].
  - now rewrite (IH Hlater).
Qed.

(** For a transcript whose file name is [stem.vtt], with no further
    [.vtt] in the stem, the base name is the stem. *)
Lemma base_name_of_extension (file_path stem : string) :
  Os.basename file_path = stem ++ ".vtt" ->
  Py.contains ".vtt" stem = false ->
  base_name_of file_path = stem.
Proof.
  intros Hname Hfree. unfold base_name_of.
  now rewrite Hname, replace_vtt_extension.
Qed.

Lemma endswith_char_app (c : ascii) (a b : string) :
  b <> "" -> Py.endswith_char c (a ++ b) = Py.endswith_char c b.
Proof.
  intro Hb. induction a as [|x a IH]; [reflexivity|].
  cbn [append Py.endswith_char]. rewrite IH.
  destruct (a ++ b) eqn:E; [|reflexivity].
  destruct a; simpl in E; [contradiction | discriminate].
Qed.

(** Below a directory that is not empty and does not end with a slash,
    the default output path is
    [directory/md/summary_{base_name}_{timestamp}.md]. *)
Lemma default_md_file_path_shape (directory base_name timestamp : string) :
  Py.truthy directory = true ->
  Py.endswith_char Os.sep directory = false ->
  default_md_file_path directory base_name timestamp
  = directory ++ "/md/summary_" ++ base_name ++ "_" ++ timestamp ++ ".md".
Proof.
  intros Hdir Hslash.
  unfold default_md_file_path, Os.join. cbn [fold_left].
  assert (H1 : Os.join2 directory "md" = directory ++ "/md").
  { unfold Os.join2. cbn [Py.startswith Ascii.eqb]. simpl.
    now rewrite Hdir, Hslash. }
  rewrite H1. unfold Os.join2.
  replace (Py.startswith "/" ("summary_" ++ base_name ++ "_" ++ timestamp ++ ".md"))
    with false by reflexivity.
  rewrite (endswith_char_app Os.sep directory "/md") by discriminate.
  assert (Hne : Py.truthy (directory ++ "/md") = true)
    by (destruct directory; [discriminate | reflexivity]).
  rewrite Hne. cbn [negb orb]. simpl (Py.endswith_char _ "/md").
  cbn iota. now rewrite !append_assoc.
Qed.

Lemma length_append (a b : string) :
  String.length (a ++ b) = (String.length a + String.length b)%nat.
Proof. induction a as [|c a IH]; simpl; [reflexivity | now rewrite IH]. Qed.


Lemma zero_pad_little (width n : nat) :
  Py.zero_pad width n = pad_little width (DecimalNat.Unsigned.to_lu n).
Proof.
  unfold Py.zero_pad, pad_little. now rewrite DecimalNat.Unsigned.to_uint_alt.
Qed.

Lemma all_from_spec (check : Decimal.uint -> bool) (count m n : nat) :
  all_from check count (DecimalNat.Unsigned.to_lu m) = true ->
  (m <= n < m + count)%nat ->
  check (DecimalNat.Unsigned.to_lu n) = true.
Proof.
  revert m. induction count as [|count IH]; intros m Hall Hn; [lia|].
  cbn [all_from] in Hall. apply andb_true_iff in Hall as [Hm Hrest].
  destruct (Nat.eq_dec m n) as [<- | Hne]; [exact Hm|].
  apply (IH (S m)); [exact Hrest | lia].
Qed.

(** A property of padded numbers that holds of the first [bound]
    numbers, checked along the digits. *)
Lemma zero_pad_all (check : Decimal.uint -> bool) (bound n : nat) :
  all_from check bound Decimal.zero = true ->
  (n < bound)%nat ->
  check (DecimalNat.Unsigned.to_lu n) = true.
Proof.
  intros Hall Hn. apply (all_from_spec check bound 0 n Hall). lia.
Qed.

Lemma zero_pad_shape (width bound n : nat) :
  all_from (fun d => (String.length (pad_little width d) =? width)%nat
                     && all_digits (pad_little width d)
                     && String.eqb (unpad (pad_little width d))
                          (NilEmpty.string_of_uint (Decimal.rev d)))
           bound Decimal.zero = true ->
  (n < bound)%nat ->
  String.length (Py.zero_pad width n) = width
  /\ all_digits (Py.zero_pad width n) = true
  /\ unpad (Py.zero_pad width n) = NilEmpty.string_of_uint (Nat.to_uint n).
Proof.
  intros Hall Hn.
  pose proof (zero_pad_all _ bound n Hall Hn) as H. cbv beta in H.
  apply andb_true_iff in H as [H Hu]. apply andb_true_iff in H as [Hl Hd].
  rewrite zero_pad_little, DecimalNat.Unsigned.to_uint_alt.
  split; [now apply Nat.eqb_eq|]. split; [exact Hd | now apply String.eqb_eq].
Qed.


Lemma zero_pad_two_digits (n : nat) :
  (n < 100)%nat ->
  String.length (Py.zero_pad 2 n) = 2%nat
  /\ all_digits (Py.zero_pad 2 n) = true
  /\ unpad (Py.zero_pad 2 n) = NilEmpty.string_of_uint (Nat.to_uint n).
Proof.
  apply zero_pad_shape. vm_compute. reflexivity.
Qed.


(** C5.  The base name is computed by removing every occurrence of
    [.vtt] from the file name, not only the extension: for the transcript
    [talks/weekly.vtt.vtt], which the directory mode finds with its
    pattern [*.vtt], the base name is [weekly], where stripping the
    extension gives [weekly.vtt]; the attendance file looked for and the
    default output path are built from [weekly]. *)
Theorem base_name_of_inner_extension :
  Os.basename "talks/weekly.vtt.vtt" = "weekly.vtt.vtt"
  /\ base_name_of "talks/weekly.vtt.vtt" = "weekly"
  /\ Os.join "talks" [base_name_of "talks/weekly.vtt.vtt" ++ ".csv"]
     = "talks/weekly.csv"
  /\ default_md_file_path "talks" (base_name_of "talks/weekly.vtt.vtt")
       (strftime (mkDatetime 2024 1 2 3 4 5))
     = "talks/md/summary_weekly_20240102030405.md".
Proof. repeat split; reflexivity. Qed.

(* ================================================================= *)
(** * Further properties of the section split *)

Section JoinAfterSplit.

Variable is_sep : ascii -> string -> bool.
Hypothesis sep_newline :
  forall c rest, is_sep c rest = true -> c = Py.newline.

Lemma join_split_when (s : string) :
  Py.join_nl (Py.split_when is_sep s) = s.
Proof.
  induction s as [|c s IH]; cbn [Py.split_when]; [reflexivity|].
  pose proof (split_when_not_nil is_sep s) as Hne.
  destruct (Py.split_when is_sep s) as [|p ps]; [contradiction|].
  destruct (is_sep c s) eqn:E.
  - apply sep_newline in E. subst c.
    rewrite join_nl_cons2. cbn [append]. now rewrite IH.
  - destruct ps as [|p' ps].
    + unfold Py.join_nl in *. cbn [String.concat] in *. now rewrite IH.
    + rewrite join_nl_cons2 in *. cbn [append]. now rewrite IH.
Qed.

End JoinAfterSplit.

Lemma section_sep_newline (c : ascii) (rest : string) :
  Ascii.eqb c Py.newline && lookahead_section rest = true -> c = Py.newline.
Proof.
  intro H. apply andb_true_iff in H as [H _]. now apply Ascii.eqb_eq.
Qed.

Lemma re_split_sections_join_aux (content : string) :
  Py.join_nl (re_split_sections content) = content.
Proof.
  unfold re_split_sections.
  apply (join_split_when _ section_sep_newline).
Qed.

(** X1.  The split loses nothing but the newlines it cuts at: joining
    the pieces of [re.split] with newlines gives the content back. *)
Theorem re_split_sections_join (content : string) :
  String.concat Py.nl (re_split_sections content) = content.
Proof.
  unfold re_split_sections.
  apply (join_split_when _ section_sep_newline).
Qed.

Lemma lookahead_first_piece (s : string) :
  lookahead_section (hd EmptyString (re_split_sections s)) = lookahead_section s.
Proof.
  pose proof (re_split_sections_join_aux s) as Hjoin.
  destruct (re_split_sections s) as [|p ps]; [now subst|].
  rewrite <- Hjoin. cbn [hd]. symmetry. apply lookahead_join.
Qed.

(** X2.  Every piece of the split after the first starts with one of the
    four section names, and no piece holds a further split point:
    splitting a piece again gives the piece itself. *)
Theorem re_split_sections_pieces (content : string) :
  Forall (fun piece => lookahead_section piece = true)
         (tl (re_split_sections content))
  /\ Forall (fun piece => re_split_sections piece = [piece])
            (re_split_sections content).
Proof.
  split.
  - induction content as [|c s IH]; [constructor|].
    pose proof (lookahead_first_piece s) as Hhead.
    unfold re_split_sections in *. cbn [Py.split_when].
    destruct (Ascii.eqb c Py.newline && lookahead_section s) eqn:E.
    + cbn [tl]. apply andb_true_iff in E as [_ E].
      destruct (Py.split_when _ s) as [|p ps]; [constructor|].
      cbn [hd tl] in *. constructor; [congruence | assumption].
    + destruct (Py.split_when _ s) as [|p ps]; [constructor | exact IH].
  - induction content as [|c s IH]; [now repeat constructor|].
    pose proof (lookahead_first_piece s) as Hhead.
    unfold re_split_sections in *. cbn [Py.split_when].
    destruct (Ascii.eqb c Py.newline && lookahead_section s) eqn:E.
    + constructor; [reflexivity | exact IH].
    + destruct (Py.split_when _ s) as [|p ps] eqn:Es.
      * now apply split_when_not_nil in Es.
      * inversion IH as [|? ? Hp Hps]; subst. constructor; [|assumption].
        cbn [hd] in Hhead. cbn [Py.split_when]. rewrite Hp, Hhead.
        destruct (Ascii.eqb c Py.newline); cbn [andb] in *;
          [now rewrite E | reflexivity].
Qed.

(* ================================================================= *)
(** * Further properties of the structurer *)

(** No section name starts with whitespace. *)
Lemma space_opens_nothing (c : ascii) (l : string) :
  Py.isspace c = true -> opens_section (String c l) = false.
Proof.
  destruct c as [[] [] [] [] [] [] [] []]; intro H;
    try discriminate H; reflexivity.
Qed.

Lemma rstrip_where_head (drop : ascii -> bool) (c : ascii) (s : string) :
  drop c = false ->
  exists r, Py.rstrip_where drop (String c s) = String c r.
Proof.
  intro Hc. cbn [Py.rstrip_where]. rewrite Hc.
  destruct (Py.rstrip_where drop s); eauto.
Qed.

(** A blank line is empty or starts with whitespace. *)
Lemma blank_line_head (l : string) :
  non_blank l = false ->
  l = "" \/ exists c l', l = String c l' /\ Py.isspace c = true.
Proof.
  destruct l as [|c l']; [now left|]. intro H. right. exists c, l'.
  split; [reflexivity|].
  destruct (Py.isspace c) eqn:Ec; [reflexivity|].
  unfold non_blank, Py.strip, Py.lstrip, Py.rstrip in H.
  cbn [Py.lstrip_where] in H. rewrite Ec in H.
  destruct (rstrip_where_head Py.isspace c l' Ec) as [r Hr].
  now rewrite Hr in H.
Qed.

Lemma blank_line_plain (l : string) :
  non_blank l = false -> opens_section l = false.
Proof.
  intro H. destruct (blank_line_head l H) as [-> | (c & l' & -> & Hc)].
  - reflexivity.
  - now apply space_opens_nothing.
Qed.

Lemma kept_lines_blank (lines : list string) :
  Forall (fun l => non_blank l = false) lines -> kept_lines lines = "".
Proof.
  induction 1 as [|l ls Hl _ IH]; [reflexivity|].
  now rewrite kept_lines_cons, Hl.
Qed.

(** X3.  A content without any non-blank line (an empty or
    whitespace-only reply) gives the title, one empty block and the
    participants block: nothing is raised and no header is invented. *)
Theorem structure_markdown_blank_content
  (content title base_name : string) (participants : list Participant) :
  Forall (fun l => non_blank l = false) (Py.split_nl content) ->
  structure_markdown content title base_name participants
  = "# " ++ base_name ++ Py.nl ++ Py.nl ++ Py.nl
    ++ "## Participants" ++ Py.nl ++ bullets participants.
Proof.
  intro Hblank.
  pose proof (split_nl_single_line content) as Hsingle.
  pose proof (join_split_nl content) as Hjoin.
  destruct (Py.split_nl content) as [|l ls] eqn:E.
  { now apply split_when_not_nil in E. }
  rewrite <- Hjoin, structure_markdown_lines by assumption.
  inversion Hblank as [|? ? Hl Hls]; subst.
  rewrite group_lines_plain
    by (eapply Forall_impl; [|exact Hls]; apply blank_line_plain).
  cbn [map String.concat].
  assert (Hstrip : Py.strip l = "").
  { unfold non_blank in Hl. now destruct (Py.strip l). }
  unfold chunk_block. rewrite Hstrip. cbn [Py.mem existsb String.eqb orb].
  unfold unheaded_block. rewrite kept_lines_blank by assumption.
  reflexivity.
Qed.

Lemma structure_markdown_blank_content_witness :
  structure_markdown ("  " ++ Py.nl ++ Py.nl ++ " ") "Metaverse Standards Forum"
    "meeting1" [mkParticipant "Ann" "5 min"]
  = "# meeting1


## Participants
- Ann (Total Duration: 5 min)
".
Proof.
  refine (structure_markdown_blank_content _ _ _ _ _).
  repeat constructor.
Defined.

(** ** Whitespace around a header *)

Lemma padding_cons (c : ascii) (s : string) :
  padding (String c s) = true ->
  Py.isspace c = true /\ Ascii.eqb c Py.newline = false /\ padding s = true.
Proof.
  cbn [padding]. intro H.
  apply andb_true_iff in H as [H Hs]. apply andb_true_iff in H as [Hc Hn].
  apply negb_true_iff in Hn. auto.
Qed.

Lemma padding_single_line (s : string) :
  padding s = true -> single_line s = true.
Proof.
  induction s as [|c s IH]; [reflexivity|]. intro H.
  apply padding_cons in H as (_ & Hn & Hs).
  cbn [single_line]. now rewrite Hn, (IH Hs).
Qed.

Lemma single_line_app (a b : string) :
  single_line (a ++ b) = single_line a && single_line b.
Proof.
  induction a as [|c a IH]; [reflexivity|].
  cbn [append single_line]. now rewrite IH, andb_assoc.
Qed.

Lemma lstrip_padding (lead s : string) :
  padding lead = true -> Py.lstrip (lead ++ s) = Py.lstrip s.
Proof.
  unfold Py.lstrip. induction lead as [|c lead IH]; [reflexivity|]. intro H.
  apply padding_cons in H as (Hc & _ & Hs).
  cbn [append Py.lstrip_where]. now rewrite Hc, (IH Hs).
Qed.

Lemma rstrip_only_padding (ws : string) :
  padding ws = true -> Py.rstrip ws = "".
Proof.
  unfold Py.rstrip. induction ws as [|c ws IH]; [reflexivity|]. intro H.
  apply padding_cons in H as (Hc & _ & Hs).
  cbn [Py.rstrip_where]. now rewrite (IH Hs), Hc.
Qed.

Lemma rstrip_padding (s ws : string) :
  padding ws = true -> Py.rstrip (s ++ ws) = Py.rstrip s.
Proof.
  intro Hws. induction s as [|c s IH].
  - cbn [append]. now rewrite rstrip_only_padding.
  - unfold Py.rstrip in *. cbn [append Py.rstrip_where]. now rewrite IH.
Qed.

Lemma startswith_app (h x : string) : Py.startswith h (h ++ x) = true.
Proof.
  induction h as [|c h IH]; [reflexivity|].
  cbn [append Py.startswith]. now rewrite Ascii.eqb_refl, IH.
Qed.

Lemma section_name_padded (h lead ws : string) :
  In h section_names -> padding lead = true -> padding ws = true ->
  Py.strip (lead ++ h ++ ws) = h
  /\ opens_section (h ++ ws) = true
  /\ single_line (lead ++ h ++ ws) = true.
Proof.
  intros Hin Hlead Hws. split; [|split].
  - unfold Py.strip. rewrite lstrip_padding by assumption.
    assert (Hl : Py.lstrip (h ++ ws) = h ++ ws)
      by (repeat (destruct Hin as [<- | Hin]; [reflexivity|]); contradiction).
    rewrite Hl, rstrip_padding by assumption.
    repeat (destruct Hin as [<- | Hin]; [reflexivity|]); contradiction.
  - unfold opens_section, lookahead_section.
    apply existsb_exists. exists h. split; [assumption | apply startswith_app].
  - destruct (section_name_facts h Hin) as (Hh & _).
    rewrite !single_line_app, Hh.
    now rewrite (padding_single_line lead Hlead), (padding_single_line ws Hws).
Qed.

Lemma chunk_block_padded (h lead ws : string) (body : list string) :
  In h section_names -> padding lead = true -> padding ws = true ->
  chunk_block ((lead ++ h ++ ws) :: body) = section_block h body.
Proof.
  intros Hin Hlead Hws.
  destruct (section_name_padded h lead ws Hin Hlead Hws) as (Hs & _ & _).
  destruct (section_name_facts h Hin) as (_ & _ & Hm & _).
  unfold chunk_block. now rewrite Hs, Hm.
Qed.

Lemma chunk_block_trailing (h ws : string) (body : list string) :
  In h section_names -> padding ws = true ->
  chunk_block ((h ++ ws) :: body) = section_block h body.
Proof.
  intros Hin Hws. exact (chunk_block_padded h "" ws body Hin eq_refl Hws).
Qed.

Lemma body_lines_single (b : list string) :
  Forall body_line b -> Forall (fun x => single_line x = true) b.
Proof. intro H. eapply Forall_impl; [|exact H]. now intros x [Hx _]. Qed.

Lemma body_lines_plain (b : list string) :
  Forall body_line b -> Forall (fun x => opens_section x = false) b.
Proof. intro H. eapply Forall_impl; [|exact H]. now intros x [_ Hx]. Qed.

(** X4.  Whitespace after a section name does not hide a header, nor
    does whitespace before the name on the first line of the text: the
    four blocks come out under the bare names, exactly as for headers
    without any whitespace around them. *)
Theorem structure_markdown_padded_headers
  (lead ws1 ws2 ws3 ws4 : string) (b1 b2 b3 b4 : list string)
  (title base_name : string) (participants : list Participant) :
  padding lead = true ->
  padding ws1 = true -> padding ws2 = true ->
  padding ws3 = true -> padding ws4 = true ->
  Forall body_line (b1 ++ b2 ++ b3 ++ b4) ->
  structure_markdown
    (Py.join_nl ((lead ++ "Meeting Overview" ++ ws1) :: b1
                 ++ ("Main Topics" ++ ws2) :: b2
                 ++ ("Decisions and Impact" ++ ws3) :: b3
                 ++ ("Action Items" ++ ws4) :: b4))
    title base_name participants
  = "# " ++ base_name ++ Py.nl ++ Py.nl
    ++ section_block "Meeting Overview" b1
    ++ section_block "Main Topics" b2
    ++ section_block "Decisions and Impact" b3
    ++ section_block "Action Items" b4
    ++ "## Participants" ++ Py.nl ++ bullets participants.
Proof.
  intros Hlead Hw1 Hw2 Hw3 Hw4 Hbody.
  apply Forall_app in Hbody as [H1 Hbody].
  apply Forall_app in Hbody as [H2 Hbody].
  apply Forall_app in Hbody as [H3 H4].
  assert (Hin1 : In "Meeting Overview" section_names) by (simpl; auto).
  assert (Hin2 : In "Main Topics" section_names) by (simpl; auto).
  assert (Hin3 : In "Decisions and Impact" section_names) by (simpl; auto).
  assert (Hin4 : In "Action Items" section_names) by (simpl; auto).
  destruct (section_name_padded _ lead ws1 Hin1 Hlead Hw1) as (_ & _ & S1).
  destruct (section_name_padded _ "" ws2 Hin2 eq_refl Hw2) as (_ & O2 & S2).
  destruct (section_name_padded _ "" ws3 Hin3 eq_refl Hw3) as (_ & O3 & S3).
  destruct (section_name_padded _ "" ws4 Hin4 eq_refl Hw4) as (_ & O4 & S4).
  rewrite structure_markdown_lines.
  - rewrite !group_lines_split by assumption.
    rewrite !group_lines_plain by (apply body_lines_plain; assumption).
    cbn [app map].
    rewrite (chunk_block_padded _ lead ws1 b1 Hin1 Hlead Hw1).
    rewrite (chunk_block_trailing _ ws2 b2 Hin2 Hw2).
    rewrite (chunk_block_trailing _ ws3 b3 Hin3 Hw3).
    rewrite (chunk_block_trailing _ ws4 b4 Hin4 Hw4).
    rewrite !concat_empty_cons. cbn [String.concat].
    now rewrite append_nil_r, !append_assoc.
  - constructor; [exact S1|].
    repeat (apply Forall_app; split;
            [apply body_lines_single; assumption|];
            constructor; [assumption|]).
    now apply body_lines_single.
Qed.

Lemma structure_markdown_padded_headers_witness :
  structure_markdown
    (Py.join_nl ((" " ++ "Meeting Overview" ++ "  ") :: ["The team met."]
                 ++ ("Main Topics" ++ " ") :: ["- Roadmap"]
                 ++ ("Decisions and Impact" ++ "") :: ["- **Decision**: ship"]
                 ++ ("Action Items" ++ " ") :: ["- **Item**: notes"]))
    "Metaverse Standards Forum" "meeting1" []
  = "# meeting1

## Meeting Overview
The team met.

## Main Topics
- Roadmap

## Decisions and Impact
- **Decision**: ship

## Action Items
- **Item**: notes

## Participants
".
Proof.
  refine (structure_markdown_padded_headers " " "  " " " "" " "
            ["The team met."] ["- Roadmap"] ["- **Decision**: ship"]
            ["- **Item**: notes"] _ "meeting1" [] _ _ _ _ _ _);
    try reflexivity.
  repeat constructor.
Defined.

(** X5.  After the first line, a header is only found at the very start
    of a line: a line that starts with whitespace, a section name behind
    it or not, stays in the body of the section it is in and is written
    verbatim if it is non-blank. *)
Theorem structure_markdown_indented_line
  (h : string) (b1 b2 : list string) (c : ascii) (x : string)
  (title base_name : string) (participants : list Participant) :
  In h section_names ->
  Forall body_line (b1 ++ b2) ->
  Py.isspace c = true ->
  single_line (String c x) = true ->
  structure_markdown (Py.join_nl (h :: b1 ++ String c x :: b2))
    title base_name participants
  = "# " ++ base_name ++ Py.nl ++ Py.nl
    ++ "## " ++ h ++ Py.nl
    ++ kept_lines b1
    ++ (if non_blank (String c x) then String c x ++ Py.nl else "")
    ++ kept_lines b2 ++ Py.nl
    ++ "## Participants" ++ Py.nl ++ bullets participants.
Proof.
  intros Hin Hbody Hc Hx.
  apply Forall_app in Hbody as [H1 H2].
  destruct (section_name_facts h Hin) as (Hh & _ & _ & _).
  assert (Hline : body_line (String c x))
    by (split; [assumption | now apply space_opens_nothing]).
  assert (Hall : Forall body_line (b1 ++ String c x :: b2))
    by (apply Forall_app; split; [|constructor]; assumption).
  rewrite structure_markdown_lines
    by (constructor; [assumption | now apply body_lines_single]).
  rewrite group_lines_plain by (now apply body_lines_plain).
  cbn [map String.concat].
  rewrite chunk_block_section by assumption.
  unfold section_block. rewrite kept_lines_app, kept_lines_cons.
  destruct (non_blank (String c x)); now rewrite !append_assoc.
Qed.

Lemma structure_markdown_indented_line_witness :
  structure_markdown
    (Py.join_nl ("Meeting Overview" :: ["The team met."]
                 ++ " Main Topics" :: ["- Roadmap"]))
    "Metaverse Standards Forum" "meeting1" []
  = "# meeting1

## Meeting Overview
The team met.
 Main Topics
- Roadmap

## Participants
".
Proof.
  refine (structure_markdown_indented_line "Meeting Overview"
            ["The team met."] ["- Roadmap"] " " "Main Topics" _ "meeting1" []
            _ _ _ _); try reflexivity.
  - simpl; auto.
  - repeat constructor.
Defined.

(* ================================================================= *)
(** * Further properties of the participant reader *)

Lemma skip_rows_skipn {A : Type} (n : nat) (it : list A) :
  skip_rows n it
  = if (List.length it <? n)%nat then Raise StopIteration
    else Return (skipn n it).
Proof.
  revert it. induction n as [|n IH]; intro it; [reflexivity|].
  destruct it as [|x it]; [reflexivity|].
  cbn [skip_rows next skipn List.length]. rewrite IH.
  reflexivity.
Qed.

(** The outcome of the reader on an existing file. *)
Lemma read_csv_file_outcome
  {W : Type} (fs : FileSystem) (file_path : string) (file : File) (w : W) :
  fs file_path = Some file ->
  outcome_of (read_csv_file fs file_path w)
  = if (List.length (csv_rows file) <? 4)%nat then Raise StopIteration
    else Return (map participant_of_row
                   (filter has_three_fields (skipn 4 (csv_rows file)))).
Proof.
  intro Hfile.
  unfold read_csv_file, bind, print, emit, lift, ret, outcome_of.
  rewrite Hfile, skip_rows_skipn.
  destruct (List.length (csv_rows file) <? 4)%nat; [reflexivity|].
  cbn [fst snd]. now rewrite fold_append_row.
Qed.

(** X6.  On an existing attendance file the reader returns a list
    exactly when the file has at least 4 rows; a file of exactly 4 rows
    gives the empty list. *)
Theorem read_csv_file_returns_iff
  (W : Type) (fs : FileSystem) (file_path : string) (file : File) (w : W) :
  fs file_path = Some file ->
  ((exists participants,
       outcome_of (read_csv_file fs file_path w) = Return participants)
   <-> (4 <= List.length (csv_rows file))%nat)
  /\ (List.length (csv_rows file) = 4%nat ->
      outcome_of (read_csv_file fs file_path w) = Return []).
Proof.
  intro Hfile. rewrite (read_csv_file_outcome fs file_path file w Hfile).
  split.
  - destruct (List.length (csv_rows file) <? 4)%nat eqn:E.
    + apply Nat.ltb_lt in E. split; [intros [ps Hps]; discriminate | lia].
    + apply Nat.ltb_ge in E. split; [auto | eauto].
  - intro Hlen. rewrite Hlen. cbn [Nat.ltb Nat.leb].
    rewrite skipn_all2 by lia. reflexivity.
Qed.

Lemma read_csv_file_returns_iff_witness :
  outcome_of
    (@read_csv_file unit
       (fun path =>
          if String.eqb path "meeting1.csv"
          then Some (mkFile [["Meeting"]; []; ["Name"; "Email"; "Duration"]; []]
                            (Raise ExternalError))
          else None)
       "meeting1.csv" tt)
  = Return [].
Proof.
  refine (proj2 (read_csv_file_returns_iff unit _ "meeting1.csv" _ tt _) _);
    reflexivity.
Defined.

Lemma records_of_similar_rows (data1 data2 : list (list string)) :
  Forall2 (fun row1 row2 =>
             ((3 <=? List.length row1) = (3 <=? List.length row2))%nat
             /\ ((3 <= List.length row1)%nat ->
                 nth 0 row1 "" = nth 0 row2 ""
                 /\ nth 2 row1 "" = nth 2 row2 "")) data1 data2 ->
  map participant_of_row (filter has_three_fields data1)
  = map participant_of_row (filter has_three_fields data2).
Proof.
  induction 1 as [|row1 row2 d1 d2 (Hn & Hfields) _ IH]; [reflexivity|].
  cbn [filter].
  assert (Hsame : has_three_fields row1 = has_three_fields row2) by exact Hn.
  rewrite <- Hsame. destruct (has_three_fields row1) eqn:E; [|exact IH].
  apply Nat.leb_le in E. destruct (Hfields E) as [H0 H2].
  cbn [map]. rewrite IH. f_equal.
  unfold participant_of_row. now rewrite H0, H2.
Qed.

(** X7.  Of a data row, only whether it has 3 fields or more and, if
    so, its fields 0 and 2 reach the result: the 4 skipped rows, the rows
    with fewer than 3 fields, field 1 and the fields after field 2 have
    no influence on it. *)
Theorem read_csv_file_other_fields_ignored
  (W : Type) (fs1 fs2 : FileSystem) (path1 path2 : string) (file1 file2 : File)
  (header1 header2 data1 data2 : list (list string)) (w : W) :
  fs1 path1 = Some file1 -> fs2 path2 = Some file2 ->
  csv_rows file1 = (header1 ++ data1)%list ->
  csv_rows file2 = (header2 ++ data2)%list ->
  List.length header1 = 4%nat -> List.length header2 = 4%nat ->
  Forall2 (fun row1 row2 =>
             ((3 <=? List.length row1) = (3 <=? List.length row2))%nat
             /\ ((3 <= List.length row1)%nat ->
                 nth 0 row1 "" = nth 0 row2 ""
                 /\ nth 2 row1 "" = nth 2 row2 "")) data1 data2 ->
  outcome_of (read_csv_file fs1 path1 w) = outcome_of (read_csv_file fs2 path2 w).
Proof.
  intros Hf1 Hf2 Hr1 Hr2 Hh1 Hh2 Hsame.
  rewrite (read_csv_file_outcome fs1 path1 file1 w Hf1).
  rewrite (read_csv_file_outcome fs2 path2 file2 w Hf2).
  rewrite Hr1, Hr2, !length_app, Hh1, Hh2.
  replace (4 + List.length data1 <? 4)%nat with false
    by (symmetry; apply Nat.ltb_ge; lia).
  replace (4 + List.length data2 <? 4)%nat with false
    by (symmetry; apply Nat.ltb_ge; lia).
  rewrite <- Hh1 at 1. rewrite <- Hh2 at 1.
  rewrite !skipn_app, !Nat.sub_diag, !skipn_all. cbn [skipn app].
  f_equal. now apply records_of_similar_rows.
Qed.

Lemma read_csv_file_other_fields_ignored_witness :
  outcome_of
    (@read_csv_file unit
       (fun _ => Some (mkFile [["a"]; ["b"]; ["c"]; ["d"];
                               ["Ann"; "ann@example.org"; "5 min"; "host"];
                               ["Bob"; "left early"]]
                              (Raise ExternalError)))
       "one.csv" tt)
  = outcome_of
      (@read_csv_file unit
         (fun _ => Some (mkFile [[]; []; []; ["Name"; "Email"; "Duration"];
                                 ["Ann"; ""; "5 min"];
                                 []]
                                (Raise ExternalError)))
         "two.csv" tt).
Proof.
  refine (read_csv_file_other_fields_ignored unit _ _ "one.csv" "two.csv" _ _
            [["a"]; ["b"]; ["c"]; ["d"]]
            [[]; []; []; ["Name"; "Email"; "Duration"]]
            [["Ann"; "ann@example.org"; "5 min"; "host"]; ["Bob"; "left early"]]
            [["Ann"; ""; "5 min"]; []] tt _ _ _ _ _ _ _); try reflexivity.
  constructor; [split; [reflexivity | intros _; split; reflexivity]|].
  constructor; [split; [reflexivity | simpl; intro H; lia]|].
  constructor.
Defined.

(** ** [strip] leaves nothing to strip *)

Lemma rstrip_where_idem (drop : ascii -> bool) (s : string) :
  Py.rstrip_where drop (Py.rstrip_where drop s) = Py.rstrip_where drop s.
Proof.
  induction s as [|c s IH]; [reflexivity|].
  cbn [Py.rstrip_where].
  destruct (Py.rstrip_where drop s) as [|c' r] eqn:E.
  - destruct (drop c) eqn:D; [reflexivity|].
    cbn [Py.rstrip_where]. now rewrite D.
  - cbn [Py.rstrip_where] in *. now rewrite IH.
Qed.

Lemma lstrip_where_head (drop : ascii -> bool) (s : string) :
  Py.lstrip_where drop s = ""
  \/ exists c t, Py.lstrip_where drop s = String c t /\ drop c = false.
Proof.
  induction s as [|c s IH]; [now left|].
  cbn [Py.lstrip_where]. destruct (drop c) eqn:D; [exact IH|].
  right. now exists c, s.
Qed.

Lemma strip_idem (s : string) : Py.strip (Py.strip s) = Py.strip s.
Proof.
  unfold Py.strip, Py.lstrip, Py.rstrip.
  destruct (lstrip_where_head Py.isspace s) as [-> | (c & t & -> & Hc)];
    [reflexivity|].
  destruct (rstrip_where_head Py.isspace c t Hc) as [r Hr].
  rewrite Hr. cbn [Py.lstrip_where]. rewrite Hc, <- Hr.
  apply rstrip_where_idem.
Qed.

(** X8.  Every record the reader returns is trimmed: neither the name
    nor the duration starts or ends with whitespace, so stripping them
    again changes nothing. *)
Theorem read_csv_file_records_trimmed
  (W : Type) (fs : FileSystem) (file_path : string) (w : W)
  (participants : list Participant) :
  outcome_of (read_csv_file fs file_path w) = Return participants ->
  Forall (fun p => Py.strip (name p) = name p
                   /\ Py.strip (total_duration p) = total_duration p)
         participants.
Proof.
  destruct (fs file_path) as [file|] eqn:Hfile.
  - rewrite (read_csv_file_outcome fs file_path file w Hfile).
    destruct (List.length (csv_rows file) <? 4)%nat; [discriminate|].
    intro H. inversion H; subst. apply Forall_map.
    apply Forall_forall. intros row _. cbn [participant_of_row name total_duration].
    split; apply strip_idem.
  - unfold read_csv_file, bind, print, emit, raise, outcome_of.
    rewrite Hfile. discriminate.
Qed.

Lemma read_csv_file_records_trimmed_witness :
  Forall (fun p => Py.strip (name p) = name p
                   /\ Py.strip (total_duration p) = total_duration p)
         [mkParticipant "Ann Lee" "5 min"].
Proof.
  refine (read_csv_file_records_trimmed unit
            (fun _ => Some (mkFile [[]; []; []; [];
                                    ["  Ann Lee "; "x"; " 5 min  "]]
                                   (Raise ExternalError)))
            "meeting1.csv" tt _ _).
  reflexivity.
Defined.

(* ================================================================= *)
(** * Further properties of [format_timestamp] *)

Lemma split_char_length (c : ascii) (s : string) :
  List.length (Py.split_char c s) = S (count_char c s).
Proof.
  unfold Py.split_char.
  induction s as [|a s IH]; [reflexivity|].
  cbn [Py.split_when count_char].
  destruct (Ascii.eqb a c).
  - cbn [List.length]. now rewrite IH.
  - destruct (Py.split_when _ s) as [|p ps]; [discriminate IH|].
    cbn [List.length] in *. exact IH.
Qed.

(** Where [t=] occurs, the split at [=] has a second piece. *)
Lemma split_after_t_equals (timestamp : string) :
  Py.contains "t=" timestamp = true ->
  exists field, item1 (Py.split_char "=" timestamp) = Return field.
Proof.
  unfold Py.split_char.
  induction timestamp as [|a s IH]; [discriminate|].
  intro H. cbn [Py.contains] in H. apply orb_true_iff in H as [H | H].
  - destruct s as [|b s]; [cbn in H; now rewrite andb_false_r in H|].
    cbn [Py.startswith] in H.
    apply andb_true_iff in H as [Ha H]. apply andb_true_iff in H as [Hb _].
    apply Ascii.eqb_eq in Ha, Hb. subst a b.
    cbn [Py.split_when]. cbn [Ascii.eqb Bool.eqb].
    pose proof (split_when_not_nil (fun a _ => Ascii.eqb a "=") s) as Hne.
    destruct (Py.split_when _ s) as [|p ps]; [contradiction|].
    now exists p.
  - destruct (IH H) as [field Hfield].
    cbn [Py.split_when].
    destruct (Py.split_when _ s) as [|x [|y rest]]; try discriminate Hfield.
    destruct (Ascii.eqb a "="); cbn [item1] in *; eauto.
Qed.

Section TimestampOutcomes.

Context {W : Type}.
Variable float : Type.
Variable int_of_str : string -> outcome Z.
Variable float_of_str : string -> outcome float.
Variable int_of_float : float -> outcome Z.

Hypothesis int_of_str_raises :
  forall s e, int_of_str s = Raise e -> e = ValueError.
Hypothesis float_of_str_raises :
  forall s e, float_of_str s = Raise e -> e = ValueError.
Hypothesis int_of_float_raises :
  forall x e, int_of_float x = Raise e -> e = ValueError \/ e = OverflowError.

Lemma timedelta_str_raises (seconds : Z) (e : exn) :
  timedelta_str seconds = Raise e -> e = OverflowError.
Proof.
  unfold timedelta_str.
  destruct (999999999 <? Z.abs (seconds / 86400))%Z; intro H;
    [now inversion H | discriminate].
Qed.

Lemma format_timestamp_try_outcomes (timestamp : string) (w : W) :
  exists r,
    format_timestamp_try float int_of_str float_of_str int_of_float timestamp w
    = ([], r, w)
    /\ forall e, r = Raise e -> e = ValueError \/ e = OverflowError.
Proof.
  unfold format_timestamp_try, return_timedelta, bind, lift, ret.
  destruct (Py.contains "t=" timestamp) eqn:Ht.
  - destruct (split_after_t_equals timestamp Ht) as [field ->].
    destruct (int_of_str _) as [n|e] eqn:En.
    + destruct (timedelta_str n) as [s|e] eqn:Ed.
      * eexists. split; [reflexivity | discriminate].
      * eexists. split; [reflexivity|]. intros e' [= <-].
        right. now apply (timedelta_str_raises n).
    + eexists. split; [reflexivity|]. intros e' [= <-].
      left. now apply (int_of_str_raises _ e En).
  - destruct (_ =? 3)%nat; [eexists; split; [reflexivity | discriminate]|].
    destruct (_ =? 2)%nat; [eexists; split; [reflexivity | discriminate]|].
    destruct (float_of_str timestamp) as [x|e] eqn:Ef.
    + destruct (int_of_float x) as [n|e] eqn:En.
      * destruct (timedelta_str n) as [s|e] eqn:Ed.
        -- eexists. split; [reflexivity | discriminate].
        -- eexists. split; [reflexivity|]. intros e' [= <-].
           right. now apply (timedelta_str_raises n).
      * eexists. split; [reflexivity|]. intros e' [= <-].
        now apply (int_of_float_raises x).
    + eexists. split; [reflexivity|]. intros e' [= <-].
      left. now apply (float_of_str_raises timestamp).
Qed.

End TimestampOutcomes.

(** X9.  With builtins that raise as Python's do ([int] and [float] of a
    string only [ValueError], [int] of a float [ValueError] or
    [OverflowError]), [format_timestamp] either returns a string or
    raises [OverflowError]: the index [1] after the split at [=] never
    fails, and every [ValueError] is caught. *)
Theorem format_timestamp_raises_only_overflow
  (W float : Type) (int_of_str : string -> outcome Z)
  (float_of_str : string -> outcome float) (int_of_float : float -> outcome Z)
  (timestamp : string) (w : W) :
  (forall s e, int_of_str s = Raise e -> e = ValueError) ->
  (forall s e, float_of_str s = Raise e -> e = ValueError) ->
  (forall x e, int_of_float x = Raise e -> e = ValueError \/ e = OverflowError) ->
  (exists result,
      outcome_of
        (format_timestamp float int_of_str float_of_str int_of_float timestamp w)
      = Return result)
  \/ outcome_of
       (format_timestamp float int_of_str float_of_str int_of_float timestamp w)
     = Raise OverflowError.
Proof.
  intros Hint Hfloat Htrunc.
  destruct (format_timestamp_try_outcomes float int_of_str float_of_str
              int_of_float Hint Hfloat Htrunc timestamp w) as (r & Hrun & Hr).
  unfold format_timestamp, try_except. rewrite Hrun.
  destruct r as [v|e]; [left; now exists v|].
  destruct (Hr e eq_refl) as [-> | ->].
  - left. now exists timestamp.
  - now right.
Qed.

Lemma format_timestamp_raises_only_overflow_witness :
  (exists result,
      outcome_of (format_timestamp Z int_of_decimal int_of_decimal
                    (fun x => Return x) "t=12m30s" tt)
      = Return result)
  \/ outcome_of (format_timestamp Z int_of_decimal int_of_decimal
                   (fun x => Return x) "t=12m30s" tt)
     = Raise OverflowError.
Proof.
  refine (format_timestamp_raises_only_overflow unit Z int_of_decimal
            int_of_decimal (fun x => Return x) "t=12m30s" tt _ _ _).
  - intros s e. unfold int_of_decimal.
    destruct (NilZero.int_of_string s); intro H; [discriminate | now inversion H].
  - intros s e. unfold int_of_decimal.
    destruct (NilZero.int_of_string s); intro H; [discriminate | now inversion H].
  - intros x e H. discriminate H.
Defined.

(** X10.  A timestamp without [t=] passes on its colons alone, whatever
    stands between them and without any call of [int] or [float]: with
    exactly two colons it is returned as it is, with exactly one it gets
    [00:] in front; nothing is printed. *)
Theorem format_timestamp_colons
  (W float : Type) (int_of_str : string -> outcome Z)
  (float_of_str : string -> outcome float) (int_of_float : float -> outcome Z)
  (timestamp : string) (w : W) :
  Py.contains "t=" timestamp = false ->
  (count_char ":" timestamp = 2%nat ->
   format_timestamp float int_of_str float_of_str int_of_float timestamp w
   = ([], Return timestamp, w))
  /\ (count_char ":" timestamp = 1%nat ->
      format_timestamp float int_of_str float_of_str int_of_float timestamp w
      = ([], Return ("00:" ++ timestamp), w)).
Proof.
  intro Ht.
  unfold format_timestamp, try_except, format_timestamp_try.
  rewrite Ht, split_char_length.
  split; intros ->; reflexivity.
Qed.

Lemma format_timestamp_colons_witness :
  format_timestamp Z int_of_decimal int_of_decimal (fun x => Return x)
    "12:30" tt
  = ([], Return "00:12:30", tt).
Proof.
  refine (proj2 (format_timestamp_colons unit Z int_of_decimal int_of_decimal
                   (fun x => Return x) "12:30" tt _) _); reflexivity.
Defined.

Lemma substring_prefix (a b : string) :
  substring 0 (String.length a) (a ++ b) = a.
Proof.
  induction a as [|c a IH]; cbn [String.length append substring].
  - now destruct b.
  - now rewrite IH.
Qed.

Lemma drop_last_suffix (a b : string) (n : nat) :
  String.length b = n -> Py.drop_last n (a ++ b) = a.
Proof.
  intros <-. unfold Py.drop_last.
  rewrite length_append, Nat.add_sub. apply substring_prefix.
Qed.

Lemma zero_pad_two (n : nat) :
  (n < 100)%nat -> String.length (Py.zero_pad 2 n) = 2%nat.
Proof. intro Hn. now destruct (zero_pad_two_digits n Hn). Qed.

(** Within one day, [str(timedelta(seconds=n))[:-3]] is [H:MM]. *)
Lemma timedelta_str_within_day (n : Z) :
  (0 <= n < 86400)%Z ->
  exists s, timedelta_str n = Return s
    /\ Py.drop_last 3 s
       = Py.str_of_Z (n / 3600) ++ ":" ++ Py.zero_pad 2 (Z.to_nat ((n / 60) mod 60)).
Proof.
  intro Hn. unfold timedelta_str.
  rewrite (Z.div_small n 86400), (Z.mod_small n 86400) by lia.
  cbn [Z.abs Z.ltb Z.compare Z.eqb].
  eexists. split; [reflexivity|].
  rewrite Z.div_div by lia. change (60 * 60)%Z with 3600%Z.
  rewrite <- !append_assoc.
  rewrite (append_assoc _ ":" (Py.zero_pad 2 (Z.to_nat (n mod 60)))).
  apply drop_last_suffix.
  rewrite length_append, zero_pad_two; [reflexivity|].
  assert (0 <= n mod 60 < 60)%Z by (apply Z.mod_pos_bound; lia). lia.
Qed.

(** X11.  A [t=] timestamp whose number is an integer literal of a time
    within one day comes out as hours and minutes only: the slice that
    ends the conversion cuts the seconds off. *)
Theorem format_timestamp_t_seconds
  (W float : Type) (int_of_str : string -> outcome Z)
  (float_of_str : string -> outcome float) (int_of_float : float -> outcome Z)
  (timestamp field : string) (n : Z) (w : W) :
  Py.contains "t=" timestamp = true ->
  item1 (Py.split_char "=" timestamp) = Return field ->
  int_of_str (Py.rstrip_char "s" field) = Return n ->
  (0 <= n < 86400)%Z ->
  format_timestamp float int_of_str float_of_str int_of_float timestamp w
  = ([], Return (Py.str_of_Z (n / 3600) ++ ":"
                 ++ Py.zero_pad 2 (Z.to_nat ((n / 60) mod 60))), w).
Proof.
  intros Ht Hfield Hint Hn.
  destruct (timedelta_str_within_day n Hn) as (s & Hs & Hcut).
  unfold format_timestamp, try_except, format_timestamp_try, return_timedelta,
    bind, lift, ret.
  now rewrite Ht, Hfield, Hint, Hs, Hcut.
Qed.

Lemma format_timestamp_t_seconds_witness :
  format_timestamp Z int_of_decimal int_of_decimal (fun x => Return x)
    "https://example.org/rec?t=3725s" tt
  = ([], Return "1:02", tt).
Proof.
  refine (format_timestamp_t_seconds unit Z int_of_decimal int_of_decimal
            (fun x => Return x) "https://example.org/rec?t=3725s" "3725s"
            3725 tt _ _ _ _); try reflexivity.
  split; [discriminate | reflexivity].
Defined.

(* ================================================================= *)
(** * Further properties of the base name and the output path *)

Lemma replace_absent (old new s : string) :
  Py.contains old s = false -> Py.replace old new s = s.
Proof.
  unfold Py.replace. induction s as [|c s IH]; [reflexivity|]. intro H.
  cbn [Py.contains] in H. apply orb_false_iff in H as [Hhere Hlater].
  now rewrite replace_from_cons, Hhere, (IH Hlater).
Qed.

(** X12.  For a transcript whose file name is [stem.vtt], with no
    further [.vtt] in the stem, the base name is the stem; for a file
    whose name holds no [.vtt] at all, as the single-file mode accepts,
    the base name is the whole file name. *)
Theorem base_name_of_file_name (file_path : string) :
  (forall stem,
      Os.basename file_path = stem ++ ".vtt" ->
      Py.contains ".vtt" stem = false ->
      base_name_of file_path = stem)
  /\ (Py.contains ".vtt" (Os.basename file_path) = false ->
      base_name_of file_path = Os.basename file_path).
Proof.
  unfold base_name_of. split.
  - intros stem -> Hfree. now apply replace_vtt_extension.
  - apply replace_absent.
Qed.

Lemma base_name_of_file_name_witness :
  base_name_of "talks/2024/weekly.sync.vtt" = "weekly.sync"
  /\ base_name_of "talks/notes.txt" = "notes.txt".
Proof.
  split.
  - refine (proj1 (base_name_of_file_name "talks/2024/weekly.sync.vtt")
              "weekly.sync" _ _); reflexivity.
  - refine (proj2 (base_name_of_file_name "talks/notes.txt") _); reflexivity.
Defined.

Lemma endswith_char_nonempty (c : ascii) (s : string) :
  Py.endswith_char c s = true -> Py.truthy s = true.
Proof. now destruct s. Qed.

(** X13.  The default output path lies in the [md] directory below the
    given directory: one slash is put between them unless the directory
    already ends with one, and for the empty directory (a bare file name
    in single-file mode) the path is relative, [md/summary_...]. *)
Theorem default_md_file_path_cases (directory base_name timestamp : string) :
  (Py.truthy directory = true ->
   Py.endswith_char Os.sep directory = false ->
   default_md_file_path directory base_name timestamp
   = directory ++ "/md/summary_" ++ base_name ++ "_" ++ timestamp ++ ".md")
  /\ (Py.endswith_char Os.sep directory = true ->
      default_md_file_path directory base_name timestamp
      = directory ++ "md/summary_" ++ base_name ++ "_" ++ timestamp ++ ".md")
  /\ (directory = "" ->
      default_md_file_path directory base_name timestamp
      = "md/summary_" ++ base_name ++ "_" ++ timestamp ++ ".md").
Proof.
  split; [apply default_md_file_path_shape|]. split.
  - intro Hslash.
    unfold default_md_file_path, Os.join. cbn [fold_left].
    assert (H1 : Os.join2 directory "md" = directory ++ "md").
    { unfold Os.join2. cbn [Py.startswith Ascii.eqb Bool.eqb andb].
      rewrite Hslash. now rewrite orb_true_r. }
    rewrite H1. unfold Os.join2.
    replace (Py.startswith "/" ("summary_" ++ base_name ++ "_" ++ timestamp ++ ".md"))
      with false by reflexivity.
    rewrite (endswith_char_app Os.sep directory "md") by discriminate.
    assert (Hne : Py.truthy (directory ++ "md") = true)
      by (apply endswith_char_nonempty in Hslash;
          destruct directory; [discriminate | reflexivity]).
    rewrite Hne. cbn [negb orb]. simpl (Py.endswith_char _ "md").
    cbn iota. now rewrite !append_assoc.
  - intros ->. reflexivity.
Qed.

Lemma default_md_file_path_cases_witness :
  default_md_file_path "talks/" "weekly" "20240102030405"
  = "talks/md/summary_weekly_20240102030405.md".
Proof.
  refine (proj1 (proj2 (default_md_file_path_cases "talks/" "weekly"
                          "20240102030405")) _).
  reflexivity.
Defined.





(* ================================================================= *)
(** * Further properties of the orchestrator *)

Lemma bind_return_inv {W A B : Type} (m : M W A) (k : A -> M W B)
  (w w' : W) (out : list event) (b : B) :
  bind m k w = (out, Return b, w') ->
  exists a out1 w1 out2,
    m w = (out1, Return a, w1) /\ k a w1 = (out2, Return b, w')
    /\ out = (out1 ++ out2)%list.
Proof.
  unfold bind. destruct (m w) as [[out1 [a|e]] w1]; [|discriminate].
  destruct (k a w1) as [[out2 r] w2] eqn:Ek. intros [= <- -> <-].
  now exists a, out1, w1, out2.
Qed.

Lemma bind_return {W A B : Type} (m : M W A) (k : A -> M W B)
  (w w1 : W) (out1 : list event) (a : A) :
  m w = (out1, Return a, w1) ->
  bind m k w
  = ((out1 ++ events_of (k a w1))%list, outcome_of (k a w1), snd (k a w1)).
Proof.
  intro Hm. unfold bind. rewrite Hm.
  now destruct (k a w1) as [[out2 r] w2].
Qed.

Lemma for_each_app {W A : Type} (xs ys : list A) (body : A -> M W unit)
  (w w' : W) (evs : list event) :
  for_each xs body w = (evs, Return tt, w') ->
  for_each (xs ++ ys) body w
  = ((evs ++ events_of (for_each ys body w'))%list,
     outcome_of (for_each ys body w'), snd (for_each ys body w')).
Proof.
  revert w evs. induction xs as [|x xs IH]; intros w evs Hrun.
  - cbn in Hrun. injection Hrun as <- <-. cbn [app].
    now destruct (for_each ys body w) as [[o r] w2].
  - cbn [for_each] in Hrun. apply bind_return_inv in Hrun
      as ([] & out1 & w1 & out2 & Hx & Hxs & ->).
    cbn [app for_each]. rewrite (bind_return _ _ _ _ _ _ Hx).
    rewrite (IH _ _ Hxs). unfold events_of, outcome_of. cbn [fst snd].
    now rewrite app_assoc.
Qed.

(** X15.  The directory mode has no isolation between files: when the
    processing of one transcript raises, the run ends with that
    exception after the files before it, and the files after it in the
    enumeration are not touched. *)
Theorem process_files_aborts
  (W : Type) (fs : FileSystem) (invoke : string -> M W string)
  (now : M W datetime) (glob : string -> list string)
  (directory title : string) (done : list string) (failing : string)
  (later : list string) (w w' w'' : W) (evs evs' : list event) (e : exn) :
  glob (Os.join directory ["*.vtt"]) = (done ++ failing :: later)%list ->
  for_each done (process_file fs invoke now directory title) w
  = (evs, Return tt, w') ->
  process_file fs invoke now directory title failing w' = (evs', Raise e, w'') ->
  process_files fs invoke now glob directory title w
  = ((evs ++ evs')%list, Raise e, w'').
Proof.
  intros Hglob Hdone Hfail.
  unfold process_files. rewrite Hglob, (for_each_app _ _ _ _ _ _ Hdone).
  cbn [for_each]. unfold bind at 1 2 3. rewrite Hfail. reflexivity.
Qed.

Lemma process_files_aborts_witness :
  outcome_of
    (process_files
       (fun path =>
          if String.eqb path "talks/a.vtt"
          then Some (mkFile [] (Return [mkCaption "0" "1" "Hello"]))
          else if String.eqb path "talks/b.vtt"
          then Some (mkFile [] (Raise ExternalError))
          else if String.eqb path "talks/c.vtt"
          then Some (mkFile [] (Return [mkCaption "0" "1" "Bye"]))
          else None)
       (fun _ => ret ("Meeting Overview" ++ Py.nl ++ "A greeting."))
       (ret (mkDatetime 2024 1 2 3 4 5))
       (fun _ => ["talks/a.vtt"; "talks/b.vtt"; "talks/c.vtt"])
       "talks" "Metaverse Standards Forum" tt)
  = Raise ExternalError.
Proof.
  refine (f_equal outcome_of
            (process_files_aborts unit _ _ _ _ "talks" _
               ["talks/a.vtt"] "talks/b.vtt" ["talks/c.vtt"]
               tt tt tt _ _ ExternalError _ _ _));
    vm_compute; reflexivity.
Defined.

Lemma structure_markdown_truthy
  (content title base_name : string) (participants : list Participant) :
  Py.truthy (structure_markdown content title base_name participants) = true.
Proof. now rewrite structure_markdown_blocks. Qed.

(** X16.  Whenever the pipeline returns, what it returns is the
    structuring of the reply to its last request, the post-processing
    one: a document that starts with the title line of the base name,
    ends with the participants block and is never empty. *)
Theorem extract_meeting_notes_document
  (W : Type) (invoke : string -> M W string) (transcript : string)
  (participants : list Participant) (title base_name : string)
  (w w' : W) (evs : list event) (document : string) :
  extract_meeting_notes invoke transcript participants title base_name w
  = (evs, Return document, w') ->
  exists content reply evs5 w4 body,
    invoke (format_prompt post_processing_prompt "content" content) w4
    = (evs5, Return reply, w')
    /\ document = structure_markdown reply title base_name participants
    /\ document = "# " ++ base_name ++ Py.nl ++ Py.nl ++ body
                  ++ "## Participants" ++ Py.nl ++ bullets participants
    /\ Py.truthy document = true.
Proof.
  unfold extract_meeting_notes, extract_section, post_process_content.
  intro Hrun.
  apply bind_return_inv in Hrun as (r1 & o1 & w1 & o1' & _ & Hrun & _).
  apply bind_return_inv in Hrun as (r2 & o2 & w2 & o2' & _ & Hrun & _).
  apply bind_return_inv in Hrun as (r3 & o3 & w3 & o3' & _ & Hrun & _).
  apply bind_return_inv in Hrun as (r4 & o4 & w4 & o4' & _ & Hrun & _).
  apply bind_return_inv in Hrun as (reply & o5 & w5 & o5' & Hlast & Hret & _).
  unfold ret in Hret. injection Hret as _ <- <-.
  eexists _, reply, o5, w4, _. split; [exact Hlast|].
  split; [reflexivity|]. split.
  - apply structure_markdown_blocks.
  - apply structure_markdown_truthy.
Qed.

Lemma extract_meeting_notes_document_witness :
  exists reply,
    "# weekly

## Main Topics
- Roadmap

## Participants
" = structure_markdown reply "T" "weekly" [].
Proof.
  destruct (extract_meeting_notes_document unit
              (fun _ => ret ("Main Topics" ++ Py.nl ++ "- Roadmap"))
              "Hello world" [] "T" "weekly" tt tt [] _ eq_refl)
    as (content & reply & evs5 & w4 & body & _ & Hdoc & _).
  exists reply. exact Hdoc.
Defined.





(** ** A failed run leaves the disk as it is *)















(** X19.  Without work to do [main] only prints: with no directory and
    no input given (absent, or the empty string) it prints the help, and
    with an input path where no file exists it prints the message that
    names the path; in both cases nothing is read, asked or written. *)
Theorem main_without_work
  (W : Type) (fs : FileSystem) (invoke : string -> M W string)
  (now : M W datetime) (glob : string -> list string) (args : Args) (w : W) :
  arg_directory args = None \/ arg_directory args = Some "" ->
  (arg_input args = None \/ arg_input args = Some "" ->
   main fs invoke now glob args w = ([PrintHelp], Return tt, w))
  /\ (forall file_path,
        arg_input args = Some file_path -> file_path <> "" ->
        fs file_path = None ->
        main fs invoke now glob args w
        = ([Print ("File not found: " ++ file_path)], Return tt, w)).
Proof.
  intro Hdir.
  assert (Hd : if_given (arg_directory args) = None)
    by (destruct Hdir as [-> | ->]; reflexivity).
  unfold main. rewrite Hd. split.
  - intros [-> | ->]; reflexivity.
  - intros file_path -> Hne Hfile.
    unfold if_given. destruct file_path as [|c p]; [contradiction|].
    cbn [Py.truthy]. unfold Os.path_exists. now rewrite Hfile.
Qed.

Lemma main_without_work_witness :
  main (fun _ => None) (fun _ => @raise unit string ExternalError)
    (ret (mkDatetime 2024 1 2 3 4 5)) (fun _ => [])
    (mkArgs (Some "talks/weekly.vtt") None (Some "") "Metaverse Standards Forum")
    tt
  = ([Print "File not found: talks/weekly.vtt"], Return tt, tt).
Proof.
  refine (proj2 (main_without_work unit _ _ _ _ _ tt _)
            "talks/weekly.vtt" _ _ _);
    try reflexivity; [now right | discriminate].
Defined.

(** X20.  The two copies of the per-file code agree: the single-file
    mode without an explicit output path does to its input what the
    directory mode does to a transcript found in the directory of that
    input. *)
Theorem main_single_file_is_process_file
  (W : Type) (fs : FileSystem) (invoke : string -> M W string)
  (now : M W datetime) (glob : string -> list string) (args : Args)
  (file_path : string) (w : W) :
  if_given (arg_directory args) = None ->
  if_given (arg_input args) = Some file_path ->
  if_given (arg_output_md args) = None ->
  Os.path_exists fs file_path = true ->
  main fs invoke now glob args w
  = process_file fs invoke now (Os.dirname file_path) (arg_title args)
      file_path w.
Proof.
  intros Hdir Hinput Hout Hexists.
  unfold main, process_file. rewrite Hdir, Hinput, Hexists, Hout.
  reflexivity.
Qed.

Lemma main_single_file_is_process_file_witness :
  main
    (fun path =>
       if String.eqb path "talks/weekly.vtt"
       then Some (mkFile [] (Return [mkCaption "0" "1" "Hello"]))
       else None)
    (fun _ => @ret unit string "Main Topics")
    (ret (mkDatetime 2024 1 2 3 4 5)) (fun _ => [])
    (mkArgs (Some "talks/weekly.vtt") None None "Metaverse Standards Forum") tt
  = process_file
      (fun path =>
         if String.eqb path "talks/weekly.vtt"
         then Some (mkFile [] (Return [mkCaption "0" "1" "Hello"]))
         else None)
      (fun _ => @ret unit string "Main Topics")
      (ret (mkDatetime 2024 1 2 3 4 5))
      "talks" "Metaverse Standards Forum" "talks/weekly.vtt" tt.
Proof.
  refine (main_single_file_is_process_file unit _ _ _ _
            (mkArgs (Some "talks/weekly.vtt") None None
               "Metaverse Standards Forum")
            "talks/weekly.vtt" tt _ _ _ _); reflexivity.
Defined.

(* ================================================================= *)
(** * Further properties of the prompt pipeline *)

Lemma prompt_split (template variable : string) (k : nat) :
  let before := substring 0 k template in
  let after :=
    substring (k + String.length variable + 2) (String.length template) template in
  template = before ++ "{" ++ variable ++ "}" ++ after ->
  (forall value, Py.replace ("{" ++ variable ++ "}") value (before ++ "{" ++ variable ++ "}" ++ after)
                 = before ++ value ++ after) ->
  exists before after,
    template = before ++ "{" ++ variable ++ "}" ++ after
    /\ forall value, format_prompt template variable value = before ++ value ++ after.
Proof.
  intros before after Htemplate Hreplace. exists before, after.
  split; [exact Htemplate|]. intro value. unfold format_prompt.
  rewrite Htemplate at 1. apply Hreplace.
Qed.

(** X21.  Each of the five prompts holds its placeholder exactly once,
    and the query sent is the prompt with the value in the place of the
    placeholder, verbatim: nothing of the value is expanded again, not
    even a placeholder inside a transcript. *)
Theorem prompts_insert_value_once :
  Forall
    (fun prompt =>
       exists before after,
         fst prompt = before ++ "{" ++ snd prompt ++ "}" ++ after
         /\ forall value,
              format_prompt (fst prompt) (snd prompt) value
              = before ++ value ++ after)
    [(overview_prompt, "transcript"); (main_topics_prompt, "transcript");
     (decisions_impact_prompt, "transcript"); (action_items_prompt, "transcript");
     (post_processing_prompt, "content")].
Proof.
  repeat constructor; cbn [fst snd].
  - apply (prompt_split overview_prompt "transcript" 448);
      [vm_compute; reflexivity | intro value; vm_compute; reflexivity].
  - apply (prompt_split main_topics_prompt "transcript" 119);
      [vm_compute; reflexivity | intro value; vm_compute; reflexivity].
  - apply (prompt_split decisions_impact_prompt "transcript" 126);
      [vm_compute; reflexivity | intro value; vm_compute; reflexivity].
  - apply (prompt_split action_items_prompt "transcript" 165);
      [vm_compute; reflexivity | intro value; vm_compute; reflexivity].
  - apply (prompt_split post_processing_prompt "content" 848);
      [vm_compute; reflexivity | intro value; vm_compute; reflexivity].
Qed.

(** X22.  One run of the pipeline sends five requests, in the order
    overview, topics, decisions, action items, post-processing; the fifth
    query holds the four replies under the four section names, and the
    document is the structuring of the fifth reply alone.  A request that
    fails ends the run with its exception: no further request is sent. *)
Theorem extract_meeting_notes_requests
  (transcript : string) (participants : list Participant)
  (title base_name : string) :
  (forall r1 r2 r3 r4 r5 rest,
      extract_meeting_notes scripted transcript participants title base_name
        ((map Return [r1; r2; r3; r4; r5] ++ rest)%list, [])
      = ([],
         Return (structure_markdown r5 title base_name participants),
         (rest,
          [format_prompt overview_prompt "transcript" transcript;
           format_prompt main_topics_prompt "transcript" transcript;
           format_prompt decisions_impact_prompt "transcript" transcript;
           format_prompt action_items_prompt "transcript" transcript;
           format_prompt post_processing_prompt "content"
             ("Meeting Overview" ++ Py.nl ++ r1 ++ Py.nl ++ Py.nl
              ++ "Main Topics" ++ Py.nl ++ r2 ++ Py.nl ++ Py.nl
              ++ "Decisions and Impact" ++ Py.nl ++ r3 ++ Py.nl ++ Py.nl
              ++ "Action Items" ++ Py.nl ++ r4)])))
  /\ (forall replies e rest,
        (List.length replies < 5)%nat ->
        exists sent,
          extract_meeting_notes scripted transcript participants title base_name
            ((map Return replies ++ Raise e :: rest)%list, [])
          = ([], Raise e, (rest, sent))
          /\ List.length sent = S (List.length replies)).
Proof.
  split.
  - intros. reflexivity.
  - intros replies e rest Hlen.
    destruct replies as [|r1 [|r2 [|r3 [|r4 [|r5 more]]]]];
      try (eexists; split; reflexivity).
    cbn [List.length] in Hlen. lia.
Qed.

Lemma extract_meeting_notes_requests_witness :
  exists sent,
    extract_meeting_notes scripted "Hello world" [] "T" "weekly"
      ((map Return ["An overview."; "- Roadmap"]
        ++ Raise ExternalError :: [Return "never asked for"])%list, [])
    = ([], Raise ExternalError, ([Return "never asked for"], sent))
    /\ List.length sent = 3%nat.
Proof.
  refine (proj2 (extract_meeting_notes_requests "Hello world" [] "T" "weekly")
            ["An overview."; "- Roadmap"] ExternalError
            [Return "never asked for"] _).
  simpl. lia.
Defined.

(* ================================================================= *)
(** * One file, end to end *)




